(** * Energy_Consumption_Exercise.ipynb: a shallow embedding

    The notebook is a linear pipeline over pandas objects.  This file embeds
    the code cells that shape data:

    - [mean_power_df]          (cell 14: [power_df.resample(freq).mean()]),
    - [make_time_series]       (cell 17), and its call in cell 19,
    - [create_training_series] (cell 22), and its call in cell 23,
    - [series_to_json_obj]     (cell 27),
    - [write_json_dataset]     (cell 30), and its calls in cell 32,
    - [json_predictor_input]   (cell 51),
    - [decode_prediction]      (cell 55),
    - [ts_2010]                (cell 65).

    The Python and pandas operations those cells call are embedded first
    (modules [Py] and [Pandas]), each with the behaviour of the library call
    it stands for; the cells follow, statement by statement; the theorems come
    last. *)

From Stdlib Require Import ZArith String Ascii List Lia PrimFloat.
From Stdlib Require Import Strings.Byte.
From Stdlib Require Import DecimalString.
From Stdlib Require Import Sorting.Sorted.
From stdpp Require Import base option list strings gmap.

#[local] Set Warnings "-register-all".

Local Open Scope string_scope.
Local Open Scope list_scope.
Local Open Scope Z_scope.

(** ** Python: outcomes, values, slices, [json.dumps], [str.encode] *)

Module Py.

(** The exceptions the embedded calls can raise.  [Unmodelled] marks a call
    whose arguments lie outside the fragment of the library that is embedded
    here (the embedding says nothing about what Python does there). *)
Inductive exn : Set :=
| TypeError
| KeyError
| IndexError
| ValueError
| OSError
| OutOfBoundsDatetime
| Unmodelled.

(** A call either returns a value or raises. *)
Inductive result (A : Type) : Type :=
| Ok (a : A)
| Raise (e : exn).
Arguments Ok {A} a.
Arguments Raise {A} e.

#[global] Instance result_ret : MRet result := fun A a => Ok a.
#[global] Instance result_bind : MBind result := fun A B f r =>
  match r with
  | Ok a => f a
  | Raise e => Raise e
  end.

Definition returns {A} (r : result A) : bool :=
  match r with Ok _ => true | Raise _ => false end.

Definition raises {A} (r : result A) : bool := negb (returns r).

(** Python values as [json] produces and consumes them.  A [dict] keeps its
    insertion order, so it is an association list; a [float] is a binary64. *)
Inductive pyval : Type :=
| PyNone
| PyBool (b : bool)
| PyInt (n : Z)
| PyFloat (x : float)
| PyStr (s : string)
| PyList (xs : list pyval)
| PyDict (kvs : list (string * pyval)).

(** [l[lo:hi]] for a sequence: a negative bound counts from the end, and
    both bounds are clipped to the sequence. *)
Definition slice_bound (n i : Z) : Z :=
  if i <? 0 then Z.max 0 (n + i) else Z.min i n.

Definition slice {A} (l : list A) (lo hi : Z) : list A :=
  let n := Z.of_nat (length l) in
  let a := slice_bound n lo in
  let b := slice_bound n hi in
  take (Z.to_nat (b - a)) (drop (Z.to_nat a) l).

(** [d[k]] for a dict with string keys. *)
Fixpoint dict_get (kvs : list (string * pyval)) (k : string) : result pyval :=
  match kvs with
  | [] => Raise KeyError
  | (k', v) :: rest => if String.eqb k' k then Ok v else dict_get rest k
  end.

(** [v[k]] with a string subscript: a dict is looked up, a list or a string
    refuses the subscript, the other values are not subscriptable. *)
Definition getitem_str (v : pyval) (k : string) : result pyval :=
  match v with
  | PyDict kvs => dict_get kvs k
  | _ => Raise TypeError
  end.

(** [len(v)]. *)
Definition len (v : pyval) : result Z :=
  match v with
  | PyList xs => Ok (Z.of_nat (length xs))
  | PyDict kvs => Ok (Z.of_nat (length kvs))
  | PyStr s => Ok (Z.of_nat (String.length s))
  | _ => Raise TypeError
  end.

(** [v[k]] with an integer subscript [0 <= k], as [range(len(v))] yields
    them.  A dict with string keys has no integer key. *)
Definition getitem_int (v : pyval) (k : nat) : result pyval :=
  match v with
  | PyList xs => match xs !! k with Some x => Ok x | None => Raise IndexError end
  | PyStr s => match String.get k s with
               | Some c => Ok (PyStr (String c EmptyString))
               | None => Raise IndexError
               end
  | PyDict _ => Raise KeyError
  | _ => Raise TypeError
  end.

(** *** [json.dumps] with its default arguments *)

Definition dquote : ascii := "034"%char.
Definition backslash : ascii := "\"%char.

Definition hex_digit (n : N) : ascii :=
  match n with
  | 0%N => "0" | 1%N => "1" | 2%N => "2" | 3%N => "3" | 4%N => "4"
  | 5%N => "5" | 6%N => "6" | 7%N => "7" | 8%N => "8" | 9%N => "9"
  | 10%N => "a" | 11%N => "b" | 12%N => "c" | 13%N => "d" | 14%N => "e"
  | _ => "f"
  end%char.

(** [ensure_ascii=True]: the printable ASCII characters stand for themselves,
    the quote and the backslash are escaped, as are the control characters,
    and every other code point is written as a [\uXXXX] escape.  A character
    of a Rocq string is a code point below 256. *)
Definition json_escape_char (c : ascii) : string :=
  let n := N_of_ascii c in
  if (n =? 34)%N then String backslash (String dquote EmptyString)
  else if (n =? 92)%N then String backslash (String backslash EmptyString)
  else if (n =? 10)%N then String backslash "n"
  else if (n =? 13)%N then String backslash "r"
  else if (n =? 9)%N then String backslash "t"
  else if (n =? 12)%N then String backslash "f"
  else if (n =? 8)%N then String backslash "b"
  else if ((32 <=? n) && (n <=? 126))%N then String c EmptyString
  else String backslash
         (String "u" (String "0" (String "0"
           (String (hex_digit (n / 16)) (String (hex_digit (n mod 16)) EmptyString))))).

Fixpoint json_escape (s : string) : string :=
  match s with
  | EmptyString => EmptyString
  | String c rest => json_escape_char c +:+ json_escape rest
  end.

Definition json_quote (s : string) : string :=
  String dquote (json_escape s +:+ String dquote EmptyString).

(** [", ".join(parts)] *)
Fixpoint join (sep : string) (parts : list string) : string :=
  match parts with
  | [] => EmptyString
  | [p] => p
  | p :: rest => p +:+ sep +:+ join sep rest
  end.

Definition str_of_int (n : Z) : string := NilZero.string_of_int (Z.to_int n).

Section Dumps.

(** The text [json.dumps] writes for a float ([float.__repr__], the shortest
    decimal that reads back as the same binary64, for a finite one): it is
    CPython's, and a parameter here. *)
Variable float_repr : float → string.

Fixpoint json_dumps (v : pyval) : string :=
  match v with
  | PyNone => "null"
  | PyBool true => "true"
  | PyBool false => "false"
  | PyInt n => str_of_int n
  | PyFloat x => float_repr x
  | PyStr s => json_quote s
  | PyList xs => "[" +:+ join ", " (map json_dumps xs) +:+ "]"
  | PyDict kvs =>
      "{" +:+ join ", " (map (fun kv => match kv with
                                       | (k, x) => json_quote k +:+ ": " +:+ json_dumps x
                                       end) kvs) +:+ "}"
  end.

End Dumps.

(** *** [str.encode('utf-8')] on code points below 256 *)

Definition utf8_char (c : ascii) : list byte :=
  let n := N_of_ascii c in
  if (n <? 128)%N then [byte_of_ascii c]
  else [byte_of_ascii (ascii_of_N (192 + n / 64)); byte_of_ascii (ascii_of_N (128 + n mod 64))].

Fixpoint encode_utf8 (s : string) : list byte :=
  match s with
  | EmptyString => []
  | String c rest => utf8_char c ++ encode_utf8 rest
  end.

End Py.

Import Py.

(** ** pandas: timestamps, [Series], [DatetimeIndex], [resample], [DataFrame]

    The notebook is written against the pandas of its time (0.2x), where
    [pd.DatetimeIndex(start=, end=, freq=)] is what [pd.date_range] is now. *)

Module Pandas.

(** A [Timestamp] is counted in seconds since 1970-01-01 00:00:00; the data
    file stamps its rows to the second. *)
Definition Timestamp : Set := Z.

Definition SECONDS_PER_DAY : Z := 86400.

(** The proleptic Gregorian calendar, as Python's [datetime] computes it. *)
Definition is_leap (y : Z) : bool :=
  (y mod 4 =? 0) && (negb (y mod 100 =? 0) || (y mod 400 =? 0)).

Definition days_before_year (y : Z) : Z :=
  let y' := y - 1 in y' * 365 + y' / 4 - y' / 100 + y' / 400.

Definition days_in_month (y m : Z) : Z :=
  match m with
  | 2 => if is_leap y then 29 else 28
  | 4 | 6 | 9 | 11 => 30
  | _ => 31
  end.

Definition days_before_month (y m : Z) : Z :=
  foldr Z.add 0 (map (fun k => days_in_month y (Z.of_nat k)) (seq 1 (Z.to_nat (m - 1)))).

Definition ymd2ord (y m d : Z) : Z :=
  days_before_year y + days_before_month y m + d.

(** 1970-01-01 is day 719163 of that count. *)
Definition EPOCH_ORDINAL : Z := 719163.

Definition midnight (y m d : Z) : Timestamp :=
  (ymd2ord y m d - EPOCH_ORDINAL) * SECONDS_PER_DAY.

(** The calendar day a timestamp falls on, as a day number since the epoch,
    and the timestamp of that day's midnight. *)
Definition day_of (t : Timestamp) : Z := t / SECONDS_PER_DAY.
Definition day_start (d : Z) : Timestamp := d * SECONDS_PER_DAY.

(** A nanosecond [Timestamp] holds the midnights from 1677-09-22 to
    2262-04-11. *)
Definition Timestamp_min_day : Timestamp := midnight 1677 9 22.
Definition Timestamp_max_day : Timestamp := midnight 2262 4 11.

Definition digit (c : ascii) : option Z :=
  let n := Z.of_N (N_of_ascii c) in
  if (48 <=? n) && (n <=? 57) then Some (n - 48) else None.

(** A date written [YYYY-MM-DD]. *)
Definition parse_iso_date (s : string) : option (Z * Z * Z) :=
  match s with
  | String y1 (String y2 (String y3 (String y4 (String "-"
      (String m1 (String m2 (String "-" (String d1 (String d2 EmptyString))))))))) =>
      a ← digit y1; b ← digit y2; c ← digit y3; d ← digit y4;
      e ← digit m1; f ← digit m2; g ← digit d1; h ← digit d2;
      Some (1000 * a + 100 * b + 10 * c + d, 10 * e + f, 10 * g + h)
  | _ => None
  end.

(** The timestamp a date string denotes.  Strings of another form than
    [YYYY-MM-DD] are outside this embedding. *)
Definition to_datetime (s : string) : result Timestamp :=
  match parse_iso_date s with
  | None => Raise Unmodelled
  | Some (y, m, d) =>
      if (1 <=? m) && (m <=? 12) && (1 <=? d) && (d <=? days_in_month y m) then
        let t := midnight y m d in
        if (Timestamp_min_day <=? t) && (t <=? Timestamp_max_day) then Ok t
        else Raise OutOfBoundsDatetime
      else Raise ValueError
  end.

(** The days from [a] to [b], both included; none when [b] is before [a]. *)
Definition daily_range (a b : Timestamp) : list Timestamp :=
  map (fun k => a + Z.of_nat k * SECONDS_PER_DAY)
      (seq 0 (Z.to_nat ((b - a) / SECONDS_PER_DAY + 1))).

(** [pd.DatetimeIndex(start=t_start, end=t_end, freq='D')] *)
Definition DatetimeIndex (t_start t_end : string) : result (list Timestamp) :=
  a ← to_datetime t_start;
  b ← to_datetime t_end;
  Ok (daily_range a b).

(** A [Series] indexed by timestamps: its rows, in order. *)
Definition Series (A : Type) : Type := list (Timestamp * A).

Definition index {A} (s : Series A) : list Timestamp := map fst s.
Definition values {A} (s : Series A) : list A := map snd s.

Fixpoint unique (l : list Timestamp) : bool :=
  match l with
  | [] => true
  | t :: rest => negb (existsb (Z.eqb t) rest) && unique rest
  end.

Section Reindex.

Context {A : Type}.

(** The missing value ([NaN]) of the series' values. *)
Variable nan : A.

(** The value a series holds at a label, [NaN] where it has no such label. *)
Fixpoint at_label (data : Series A) (t : Timestamp) : A :=
  match data with
  | [] => nan
  | (t', v) :: rest => if Z.eqb t' t then v else at_label rest t
  end.

(** [pd.Series(data=data, index=index)] where [data] is itself a [Series]
    and [index] is not empty: [data] is reindexed, that is, the new series
    has the labels of [index], and at each label the value [data] holds
    there, [NaN] where [data] has no such label.  Reindexing refuses a
    [data] whose own labels repeat. *)
Definition Series_of (data : Series A) (idx : list Timestamp) : result (Series A) :=
  if unique (index data) then Ok (map (fun t => (t, at_label data t)) idx)
  else Raise ValueError.

End Reindex.

(** *** [resample('D').mean()] *)

(** Resampling works on the rows in the order of their stamps: rows that
    are not in that order are first put in it by a stable sort (rows with
    the same stamp keep their order). *)
Fixpoint insert_row {A} (r : Timestamp * A) (rows : Series A) : Series A :=
  match rows with
  | [] => [r]
  | r' :: rest => if r.1 <=? r'.1 then r :: r' :: rest else r' :: insert_row r rest
  end.

Definition chronological {A} (s : Series A) : Series A := foldr insert_row [] s.

(** The values stamped on day [d], in the order of their stamps. *)
Definition on_day {A} (s : Series A) (d : Z) : list A :=
  values (filter (fun row => day_of row.1 = d) (chronological s)).

Section Resample.

(** The column is a [float64] one.  The binary64 number that [mean]
    computes from the values of a bin that has rows, taken in the order of
    their stamps, is a parameter: the statements below hold of it however
    pandas adds the values up and rounds. *)
Variable float_mean : list float → float.

(** The mean of a bin: [NaN] for a bin without rows. *)
Definition bin_mean (vs : list float) : float :=
  match vs with
  | [] => nan
  | _ => float_mean vs
  end.

(** [s.resample('D').mean()]: one bin per calendar day from the day of the
    earliest row to the day of the latest; each bin is labelled with its
    midnight and holds the mean of the rows that fall on that day, [NaN]
    when no row does. *)
Definition resample_D_mean (s : Series float) : Series float :=
  match map day_of (index s) with
  | [] => []
  | d :: ds =>
      let first := foldr Z.min d ds in
      let last := foldr Z.max d ds in
      map (fun day => (day_start day, bin_mean (on_day s day)))
          (seqZ first (last - first + 1))
  end.

End Resample.

(** *** [pd.DataFrame(data=...)] *)

(** A table: its column labels, its number of rows (the length of its
    [RangeIndex]) and the cells of each column, top to bottom. *)
Record DataFrame : Type := {
  columns : list string;
  nrows : nat;
  cells : list (list pyval)
}.

Definition empty_DataFrame : DataFrame :=
  {| columns := []; nrows := 0; cells := [] |}.

Definition as_list (v : pyval) : option (list pyval) :=
  match v with PyList xs => Some xs | _ => None end.

Definition is_dict (v : pyval) : bool :=
  match v with PyDict _ => true | _ => false end.

Section Frame.

(** pandas converts what a column is given as to the column's [dtype],
    which it infers from the values (integers next to floats become floats,
    [None] among numbers becomes [NaN], ...), and repeats a scalar down the
    column.  [column_values v n] stands for the cells it stores for a column
    given as [v] in a table of [n] rows; it is a parameter. *)
Variable column_values : pyval → nat → list pyval.

(** [pd.DataFrame(data=d)].  For a dict [d]: one column per key, in the
    dict's order (as pandas keeps it from 0.23 on).  The values that are
    lists must agree in length, which is the number of rows; a value that is
    a scalar ([None], a boolean, a number, a string) is repeated down its
    column; a dict of scalars only is refused; so is a dict next to a list.
    A dict without keys, and [None], give the empty table; a scalar is
    refused.  What is left (a list as [d], dicts as the only non-scalar
    values) is outside this embedding. *)
Definition DataFrame_of (data : pyval) : result DataFrame :=
  match data with
  | PyNone => Ok empty_DataFrame
  | PyDict [] => Ok empty_DataFrame
  | PyDict kvs =>
      let vs := map snd kvs in
      match omap as_list vs with
      | [] => if existsb is_dict vs then Raise Unmodelled else Raise ValueError
      | c :: rest =>
          if forallb (fun c' => Nat.eqb (length c') (length c)) rest
             && negb (existsb is_dict vs)
          then Ok {| columns := map fst kvs; nrows := length c;
                     cells := map (fun v => column_values v (length c)) vs |}
          else Raise ValueError
      end
  | PyList _ => Raise Unmodelled
  | _ => Raise ValueError
  end.

End Frame.

(** [df[label]], the cells of a column. *)
Fixpoint column_of (labels : list string) (cols : list (list pyval)) (label : string)
  : option (list pyval) :=
  match labels, cols with
  | l :: labels', c :: cols' => if String.eqb l label then Some c else column_of labels' cols' label
  | _, _ => None
  end.

Definition column (df : DataFrame) (label : string) : option (list pyval) :=
  column_of (columns df) (cells df) label.

End Pandas.

Import Pandas.

(** ** The notebook's cells *)

(** *** Cell 14: daily resampling

    [[
    freq = 'D'
    mean_power_df = power_df.resample(freq).mean()
    ]]
    [float_mean] is the parameter of [resample_D_mean]. *)
Definition mean_power_df (float_mean : list float → float) (power_df : Series float)
    : Series float :=
  resample_D_mean float_mean power_df.

Section Cells.

(** The type of the values a series holds, and its missing value. *)
Context {A : Type}.
Variable nan : A.

(** *** Cell 17: [make_time_series], called with [freq='D'] *)

(** [leap = '2008'], the leap year stored for this dataset. *)
Definition leap : string := "2008".

(** [end_idx] as the loop body sets it from [year] and [start_idx]. *)
Definition year_end_idx (year : string) (start_idx : Z) : Z :=
  if String.eqb year leap then start_idx + 366 else start_idx + 365.

(** The [for] loop, from the year at hand on: [start_idx] and [time_series]
    are the loop's variables. *)
Fixpoint make_time_series_loop (mean_power_df : Series A) (years : list string)
    (start_idx : Z) (time_series : list (Series A)) : result (list (Series A)) :=
  match years with
  | [] => Ok time_series
  | year :: years' =>
      let end_idx := year_end_idx year start_idx in
      let t_start := year +:+ "-01-01" in
      let t_end := year +:+ "-12-31" in
      let data := slice mean_power_df start_idx end_idx in
      index ← DatetimeIndex t_start t_end;
      series ← Series_of nan data index;
      let time_series := time_series ++ [series] in
      let start_idx := end_idx in
      make_time_series_loop mean_power_df years' start_idx time_series
  end.

(** [make_time_series(mean_power_df, years, freq='D', start_idx)]; the
    notebook leaves [start_idx] at its default, 16. *)
Definition make_time_series (mean_power_df : Series A) (years : list string)
    (start_idx : Z) : result (list (Series A)) :=
  let time_series := [] in
  make_time_series_loop mean_power_df years start_idx time_series.

Definition default_start_idx : Z := 16.

(** The rows of [mean_power_df] each pass of the loop slices, as the pairs
    [(start_idx, end_idx)] the loop goes through: a projection of the loop's
    variables, tied to the loop by [make_time_series_loop_trace] below. *)
Fixpoint year_windows (years : list string) (start_idx : Z) : list (Z * Z) :=
  match years with
  | [] => []
  | year :: years' =>
      let end_idx := year_end_idx year start_idx in
      (start_idx, end_idx) :: year_windows years' end_idx
  end.

(** *** Cell 22: [create_training_series]

    [[
    def create_training_series(complete_time_series, prediction_length):
        '''... :return: A list of training time series.'''
        # your code here

        pass
    ]]
    The body is [pass]: the call returns [None], whatever it is given. *)
Definition create_training_series (complete_time_series : list (Series A))
    (prediction_length : Z) : result (option (list (Series A))) :=
  Ok None.

(** *** Cell 27: [series_to_json_obj]

    [[
    def series_to_json_obj(ts):
        '''... :return: A dictionary of values with "start" and "target" keys.'''
        # your code here

        pass
    ]]
    Again the body is [pass], and the call returns [None]. *)
Definition series_to_json_obj (ts : Series A) : pyval := PyNone.

(** *** Cell 30: [write_json_dataset] *)

(** What the cell acts on: the files, by name, what was printed, and the
    names under which the file system lets a file be opened for writing
    (the directory exists, the name is not a directory's, the process may
    write there). *)
Record world : Type := {
  files : gmap string (list byte);
  stdout : list string;
  openable : string → bool
}.

(** [open(filename, 'wb')] creates the file or empties it, and raises an
    [OSError] ([FileNotFoundError], [PermissionError], ...) where the file
    system refuses; [f.write] appends; [print] adds a line. *)
Definition open_wb (filename : string) (w : world) : result world :=
  if openable w filename
  then Ok {| files := <[filename := []]> (files w); stdout := stdout w;
             openable := openable w |}
  else Raise OSError.

Definition write (filename : string) (data : list byte) (w : world) : world :=
  {| files := <[filename := default [] (files w !! filename) ++ data]> (files w);
     stdout := stdout w; openable := openable w |}.

Definition print (line : string) (w : world) : world :=
  {| files := files w; stdout := stdout w ++ [line]; openable := openable w |}.

Definition newline : string := String "010"%char EmptyString.

Variable float_repr : float → string.

(** The body of the [for ts in time_series] loop. *)
Definition write_json_line (filename : string) (w : world) (ts : Series A) : world :=
  let json_line := json_dumps float_repr (series_to_json_obj ts) +:+ newline in
  let json_line := encode_utf8 json_line in
  write filename json_line w.

(** [write_json_dataset(time_series, filename)]: the world the call leaves,
    and whether it returned or raised.  [time_series] is what the caller
    passes, a list or [None]; [for ts in None] raises a [TypeError], by
    which time the file is open, and empty; leaving the [with] block closes
    the file and lets the error through, past the [print]. *)
Definition write_json_dataset (time_series : option (list (Series A)))
    (filename : string) (w : world) : world * result unit :=
  match open_wb filename w with
  | Raise e => (w, Raise e)
  | Ok w =>
      match time_series with
      | None => (w, Raise TypeError)
      | Some time_series =>
          let w := foldl (write_json_line filename) w time_series in
          (print (filename +:+ " saved.") w, Ok ())
      end
  end.

(** *** Cell 51: [json_predictor_input] *)

(** [for k in range(len(input_ts)): instances.append(series_to_json_obj(input_ts[k]))] *)
Fixpoint instances_loop (input_ts : list (Series A)) (instances : list pyval) : list pyval :=
  match input_ts with
  | [] => instances
  | ts :: rest => instances_loop rest (instances ++ [series_to_json_obj ts])
  end.

(** [request_data], the dict the function builds. *)
Definition request_data (input_ts : list (Series A)) (num_samples : Z)
    (quantiles : list string) : pyval :=
  let instances := instances_loop input_ts [] in
  let configuration :=
    PyDict [("num_samples", PyInt num_samples);
            ("output_types", PyList [PyStr "quantiles"]);
            ("quantiles", PyList (map PyStr quantiles))] in
  PyDict [("instances", PyList instances); ("configuration", configuration)].

Definition json_predictor_input (input_ts : list (Series A)) (num_samples : Z)
    (quantiles : list string) : list byte :=
  let json_request := encode_utf8 (json_dumps float_repr (request_data input_ts num_samples quantiles)) in
  json_request.

Definition default_num_samples : Z := 50.
Definition default_quantiles : list string := ["0.1"; "0.5"; "0.9"].

End Cells.

(** *** Cell 55: [decode_prediction] *)

Section Decode.

(** [bytes.decode(encoding)] and [json.loads] are the standard library's;
    they are parameters here. *)
Variable bytes_decode : list byte → string → result string.
Variable json_loads : string → result pyval.

(** The cells [pd.DataFrame] stores for a column, the parameter of
    [DataFrame_of]. *)
Variable column_values : pyval → nat → list pyval.

(** The [for k in range(...)] loop, from index [k] on, for the remaining
    [n] indices. *)
Fixpoint decode_prediction_loop (prediction_data : pyval) (k n : nat)
    (prediction_list : list DataFrame) : result (list DataFrame) :=
  match n with
  | O => Ok prediction_list
  | S n' =>
      predictions ← getitem_str prediction_data "predictions";
      prediction ← getitem_int predictions k;
      quantiles ← getitem_str prediction "quantiles";
      df ← DataFrame_of column_values quantiles;
      decode_prediction_loop prediction_data (S k) n' (prediction_list ++ [df])
  end.

Definition decode_prediction (prediction : list byte) (encoding : string)
    : result (list DataFrame) :=
  text ← bytes_decode prediction encoding;
  prediction_data ← json_loads text;
  let prediction_list := [] in
  predictions ← getitem_str prediction_data "predictions";
  n ← len predictions;
  decode_prediction_loop prediction_data 0 (Z.to_nat n) prediction_list.

End Decode.

(** ** Vocabulary of the statements *)

(** The year a four-digit year string denotes, as in ['2007']. *)
Definition year_number (year : string) : option Z :=
  match year with
  | String y1 (String y2 (String y3 (String y4 EmptyString))) =>
      a ← digit y1; b ← digit y2; c ← digit y3; d ← digit y4;
      Some (1000 * a + 100 * b + 10 * c + d)
  | _ => None
  end.

(** The year strings [make_time_series] can date: four digits, and a year
    whose every day a [Timestamp] holds. *)
Definition valid_year (year : string) : bool :=
  match year_number year with
  | Some y => (1678 <=? y) && (y <=? 2261)
  | None => false
  end.

(** The days of year [y], January 1 through December 31. *)
Definition year_days (y : Z) : list Timestamp :=
  daily_range (midnight y 1 1) (midnight y 12 31).

(** Where the loop's [start_idx] stands after the given years. *)
Definition final_idx (years : list string) (start_idx : Z) : Z :=
  foldl (fun idx year => year_end_idx year idx) start_idx years.

(** A frame of consecutive days from [first] on, holding [vals]. *)
Definition daily_frame {A} (first : Timestamp) (vals : list A) : Series A :=
  imap (fun k v => (first + Z.of_nat k * SECONDS_PER_DAY, v)) vals.

(** The values 1, 2, ..., n. *)
Definition counting (n : nat) : list (option Z) :=
  map (fun k => Some (Z.of_nat k)) (seq 1 n).

(** The rows of a series that hold a value. *)
Definition observed {B} (s : Series (option B)) : Series (option B) :=
  filter (fun row => is_Some row.2) s.

(** A response record [p] that maps each of [labels], and nothing else, to a
    list of [L] values under its key ["quantiles"]. *)
Definition well_formed_prediction (labels : list string) (L : nat) (p : pyval) : Prop :=
  ∃ cols, getitem_str p "quantiles" = Ok (PyDict cols) ∧
          NoDup (map fst cols) ∧
          (∀ q, q ∈ map fst cols ↔ q ∈ labels) ∧
          Forall (fun kv => ∃ vs, kv.2 = PyList vs ∧ length vs = L) cols.

(** A [json.loads] that reads one document, the text [json.dumps] writes
    for [doc], and a [bytes.decode] that reads that text's UTF-8 bytes. *)
Definition loads_document (float_repr : float → string) (doc : pyval)
    (text : string) : result pyval :=
  if String.eqb text (json_dumps float_repr doc) then Ok doc else Raise ValueError.

Definition decode_document (float_repr : float → string) (doc : pyval)
    (data : list byte) (encoding : string) : result string :=
  if String.eqb (string_of_list_byte data)
                (string_of_list_byte (encode_utf8 (json_dumps float_repr doc)))
  then Ok (json_dumps float_repr doc) else Raise ValueError.

(** A [float.__repr__] for documents that hold no float. *)
Definition no_float_repr (x : float) : string := "nan".

(** The series one pass of the loop appends: the pass for [year] that
    slices the rows [w.1, w.2) of the frame. *)
Definition year_series {A} (nan : A) (mean_power_df : Series A) (year : string)
    (w : Z * Z) : result (Series A) :=
  idx ← DatetimeIndex (year +:+ "-01-01") (year +:+ "-12-31");
  Series_of nan (slice mean_power_df w.1 w.2) idx.

(** The frames of the examples: the daily means from 2006-12-16 on (the
    notebook's frame starts that day), and a frame that holds the 366 days
    of 2012 and no other. *)
Definition frame_from_2006 : Series (option Z) :=
  daily_frame (midnight 2006 12 16) (counting 1200).

Definition frame_2012 : Series (option Z) :=
  daily_frame (midnight 2012 1 1) (counting 366).

(** A day lies within the days a column covers. *)
Definition covered {A} (power_df : Series A) (d : Z) : Prop :=
  ∃ r1 r2, r1 ∈ power_df ∧ r2 ∈ power_df ∧ day_of r1.1 <= d <= day_of r2.1.

(** Two rows, one stamped on 1970-01-01 and one on 1970-01-03. *)
Definition two_days_apart : Series float :=
  [(midnight 1970 1 1 + 60, 1.0%float); (midnight 1970 1 3 + 120, 3.0%float)].

(** A mean for the examples: the sum of the values, added up in order, over
    their number. *)
Definition sum_over_count (vs : list float) : float :=
  (foldl PrimFloat.add 0 vs / foldl (fun n _ => n + 1) 0 vs)%float.

(** The series of the examples: three days from 2007-01-01 on, two days
    from 2008-01-01 on. *)
Definition series_2007 : Series float :=
  daily_frame (midnight 2007 1 1) [2.5; 6.25; 1.0]%float.

Definition series_2008 : Series float :=
  daily_frame (midnight 2008 1 1) [4.0; 10.0]%float.

(** A series of the 365 days of 2007. *)
Definition year_2007 : Series (option Z) :=
  daily_frame (midnight 2007 1 1) (counting 365).

(** [s] with its last [n] points removed, [s[:-n]]. *)
Definition without_last {A} (n : nat) (s : Series A) : Series A :=
  take (length s - n) s.

(** A world with no file and nothing printed, where every name can be
    opened. *)
Definition empty_world : world :=
  {| files := ∅; stdout := []; openable := fun _ => true |}.

(** A response with one record, whose ["quantiles"] has no label. *)
Definition response_without_labels : pyval :=
  PyDict [("predictions", PyList [PyDict [("quantiles", PyDict [])]])].

(** A response with two records, for the quantiles 0.1 and 0.9 and two days. *)
Definition response_two_records : pyval :=
  PyDict [("predictions",
           PyList [PyDict [("quantiles",
                            PyDict [("0.1", PyList [PyFloat 1.0; PyFloat 1.5]);
                                    ("0.9", PyList [PyFloat 2.0; PyFloat 2.5])])];
                   PyDict [("quantiles",
                            PyDict [("0.9", PyList [PyFloat 4.0; PyFloat 4.5]);
                                    ("0.1", PyList [PyFloat 3.0; PyFloat 3.5])])]])].

(** A [float.__repr__] that knows the floats of [response_two_records]. *)
Definition repr_of_examples (x : float) : string :=
  if PrimFloat.eqb x 1.0 then "1.0" else if PrimFloat.eqb x 1.5 then "1.5"
  else if PrimFloat.eqb x 2.0 then "2.0" else if PrimFloat.eqb x 2.5 then "2.5"
  else if PrimFloat.eqb x 3.0 then "3.0" else if PrimFloat.eqb x 3.5 then "3.5"
  else if PrimFloat.eqb x 4.0 then "4.0" else if PrimFloat.eqb x 4.5 then "4.5"
  else "nan".

(** The line [write_json_dataset] writes for a series, as bytes, and the
    lines it writes for a list of them. *)
Definition json_line {A} (float_repr : float → string) (ts : Series A) : list byte :=
  encode_utf8 (json_dumps float_repr (series_to_json_obj ts) +:+ newline).

Definition json_lines {A} (float_repr : float → string) (time_series : list (Series A))
    : list byte :=
  concat (map (json_line float_repr) time_series).

(** The [configuration] of a request. *)
Definition configuration_of (num_samples : Z) (quantiles : list string) : pyval :=
  PyDict [("num_samples", PyInt num_samples);
          ("output_types", PyList [PyStr "quantiles"]);
          ("quantiles", PyList (map PyStr quantiles))].

(** ** The cells that call these functions *)

(** *** Cell 19: the years of the notebook

    [[
    full_years = ['2007', '2008', '2009']
    time_series = make_time_series(mean_power_df, full_years, freq=freq)
    ]] *)
Definition full_years : list string := ["2007"; "2008"; "2009"].

Definition cell_19 {A} (nan : A) (mean_power_df : Series A) : result (list (Series A)) :=
  make_time_series nan mean_power_df full_years default_start_idx.

(** *** Cell 23: the training series

    [[
    prediction_length = 30 # 30 days ~ a month
    time_series_training = create_training_series(time_series, prediction_length)
    ]] *)
Definition cell_23 {A} (time_series : list (Series A)) : result (option (list (Series A))) :=
  let prediction_length := 30 in
  create_training_series time_series prediction_length.

(** *** Cell 32: the two files

    [[
    train_key = os.path.join(data_dir, 'train.json')
    test_key = os.path.join(data_dir, 'test.json')
    write_json_dataset(time_series_training, train_key)
    write_json_dataset(time_series, test_key)
    ]]
    with [data_dir = 'json_energy_data']. *)
Definition train_key : string := "json_energy_data/train.json".
Definition test_key : string := "json_energy_data/test.json".

(** [time_series_training] is what cell 23 left in that variable, a list or
    [None]; [time_series] is the list of cell 19.  An error in the first
    call ends the cell. *)
Definition cell_32 {A} (float_repr : float → string)
    (time_series_training : option (list (Series A))) (time_series : list (Series A))
    (w : world) : world * result unit :=
  match write_json_dataset float_repr time_series_training train_key w with
  | (w, Ok _) => write_json_dataset float_repr (Some time_series) test_key w
  | (w, Raise e) => (w, Raise e)
  end.

(** *** Cells 61 and 65: the series of 2010

    [[
    start_date = '2010-01-01'
    ts_2010 = []
    data_2010 = mean_power_df.values[1112:]
    index = pd.DatetimeIndex(start=start_date, periods=len(data_2010), freq='D')
    ts_2010.append(pd.Series(data=data_2010, index=index))
    ]] *)
Definition start_date : string := "2010-01-01".

(** [pd.DatetimeIndex(start=start, periods=periods, freq='D')]: that many
    days from [start] on, all of which a [Timestamp] must hold. *)
Definition DatetimeIndex_periods (start : string) (periods : nat) : result (list Timestamp) :=
  a ← to_datetime start;
  let stamps := map (fun k => a + Z.of_nat k * SECONDS_PER_DAY) (seq 0 periods) in
  if forallb (fun t => t <=? Timestamp_max_day) stamps then Ok stamps
  else Raise OutOfBoundsDatetime.

(** [pd.Series(data=data, index=index)] where [data] is an array of values:
    the values are labelled in order, and there must be as many as labels. *)
Definition Series_of_values {A} (data : list A) (idx : list Timestamp) : result (Series A) :=
  if Nat.eqb (length data) (length idx) then Ok (zip idx data) else Raise ValueError.

Definition ts_2010 {A} (mean_power_df : Series A) : result (list (Series A)) :=
  let ts_2010 := [] in
  let data_2010 := drop 1112 (values mean_power_df) in
  index ← DatetimeIndex_periods start_date (length data_2010);
  series ← Series_of_values data_2010 index;
  Ok (ts_2010 ++ [series]).

(** ** More vocabulary *)

(** The year strings of [years] denote the years [y], [y + 1], ... *)
Fixpoint consecutive_years (y : Z) (years : list string) : Prop :=
  match years with
  | [] => True
  | year :: rest => year_number year = Some y ∧ consecutive_years (y + 1) rest
  end.

(** The year the string denotes is a leap year only if the string is
    ['2008'], and ['2008'] is one. *)
Definition leap_only_2008 (year : string) : Prop :=
  ∀ y, year_number year = Some y → (is_leap y = true ↔ year = "2008").

(** What [decode_prediction] does with one record of the response. *)
Definition decode_record (column_values : pyval → nat → list pyval) (p : pyval)
    : result DataFrame :=
  quantiles ← getitem_str p "quantiles";
  DataFrame_of column_values quantiles.

(** The records decoded one after the other; the first that raises ends
    the decoding. *)
Fixpoint decode_records (column_values : pyval → nat → list pyval) (preds : list pyval)
    : result (list DataFrame) :=
  match preds with
  | [] => Ok []
  | p :: rest =>
      df ← decode_record column_values p;
      dfs ← decode_records column_values rest;
      Ok (df :: dfs)
  end.

(** The cells of a column given as a list of numbers of one type, or as
    one number: pandas stores the numbers as they are. *)
Definition float_column (v : pyval) (n : nat) : list pyval :=
  match v with
  | PyList xs => xs
  | _ => replicate n v
  end.

(** The world [w], but with the names that can be opened as given. *)
Definition with_openable (openable : string → bool) (w : world) : world :=
  {| files := files w; stdout := stdout w; openable := openable |}.

(** The earliest and the latest day a column has a row for. *)
Definition first_day {A} (power_df : Series A) (d : Z) : Prop :=
  (∃ r, r ∈ power_df ∧ day_of r.1 = d) ∧ ∀ r, r ∈ power_df → d <= day_of r.1.

Definition last_day {A} (power_df : Series A) (d : Z) : Prop :=
  (∃ r, r ∈ power_df ∧ day_of r.1 = d) ∧ ∀ r, r ∈ power_df → day_of r.1 <= d.

(** The daily means of a column, one per day of [days]: for each day, what
    [mean] computes from the values of that day's rows, [NaN] for a day
    without rows. *)
Definition daily_means (float_mean : list float → float) (power_df : Series float)
    (days : list Timestamp) : Series float :=
  map (fun t => (t, bin_mean float_mean (on_day power_df (day_of t)))) days.

(** A column with a row on every day from 2006-12-16 to 2010-01-02. *)
Definition column_2006_2010 : Series float :=
  map (fun k => (midnight 2006 12 16 + Z.of_nat k * SECONDS_PER_DAY + 60, 1.5%float))
      (seq 0 1114).

(** A response whose second record has no ["quantiles"], and a response
    without ["predictions"]. *)
Definition record_of_median : pyval :=
  PyDict [("quantiles", PyDict [("0.5", PyList [PyInt 1; PyInt 2])])].

Definition response_missing_quantiles : pyval :=
  PyDict [("predictions", PyList [record_of_median; PyDict [("mean", PyList [PyInt 1])]])].

Definition response_without_predictions : pyval :=
  PyDict [("message", PyStr "no model")].

(** The records of [response_two_records] and the tables of its columns. *)
Definition two_records : list pyval :=
  [PyDict [("quantiles",
            PyDict [("0.1", PyList [PyFloat 1.0; PyFloat 1.5]);
                    ("0.9", PyList [PyFloat 2.0; PyFloat 2.5])])];
   PyDict [("quantiles",
            PyDict [("0.9", PyList [PyFloat 4.0; PyFloat 4.5]);
                    ("0.1", PyList [PyFloat 3.0; PyFloat 3.5])])]].

Definition two_tables : list DataFrame :=
  [{| columns := ["0.1"; "0.9"]; nrows := 2;
      cells := [[PyFloat 1.0; PyFloat 1.5]; [PyFloat 2.0; PyFloat 2.5]] |};
   {| columns := ["0.9"; "0.1"]; nrows := 2;
      cells := [[PyFloat 4.0; PyFloat 4.5]; [PyFloat 3.0; PyFloat 3.5]] |}].

(** ** Lemmas on the embedded library calls *)

Section CalendarFacts.

Lemma days_before_month_1 y : days_before_month y 1 = 0.
Proof. reflexivity. Qed.

Lemma days_before_month_12 y :
  days_before_month y 12 = 334 + (if is_leap y then 1 else 0).
Proof.
  unfold days_before_month, days_in_month. simpl.
  destruct (is_leap y); reflexivity.
Qed.

Lemma year_span y :
  midnight y 12 31 - midnight y 1 1
  = (364 + (if is_leap y then 1 else 0)) * SECONDS_PER_DAY.
Proof.
  unfold midnight, ymd2ord. rewrite days_before_month_1, days_before_month_12.
  destruct (is_leap y); lia.
Qed.

Lemma days_before_year_bounds y :
  1678 <= y <= 2261 → 612512 <= days_before_year y <= 825448.
Proof.
  intros Hy. unfold days_before_year.
  Z.div_mod_to_equations. lia.
Qed.

End CalendarFacts.

Section YearStrings.

Lemma valid_year_number year :
  valid_year year = true → ∃ y, year_number year = Some y ∧ 1678 <= y <= 2261.
Proof.
  unfold valid_year. destruct (year_number year) as [y|]; [|discriminate].
  intros H. exists y. split; [reflexivity|lia].
Qed.

Lemma parse_year_dates year y :
  year_number year = Some y →
  parse_iso_date (year +:+ "-01-01") = Some (y, 1, 1) ∧
  parse_iso_date (year +:+ "-12-31") = Some (y, 12, 31).
Proof.
  destruct year as [|c1 [|c2 [|c3 [|c4 [|c5 rest]]]]]; simpl; try discriminate.
  destruct (digit c1) as [a|]; simpl; [|discriminate].
  destruct (digit c2) as [b|]; simpl; [|discriminate].
  destruct (digit c3) as [c|]; simpl; [|discriminate].
  destruct (digit c4) as [d|]; simpl; [|discriminate].
  intros [= <-]. split; reflexivity.
Qed.

Lemma midnight_year_start_bounds y :
  1678 <= y <= 2261 →
  (Timestamp_min_day <=? midnight y 1 1) = true ∧
  (midnight y 1 1 <=? Timestamp_max_day) = true.
Proof.
  intros Hy. pose proof (days_before_year_bounds y Hy) as Hb.
  assert (Hmin : Timestamp_min_day = -9223286400) by reflexivity.
  assert (Hmax : Timestamp_max_day = 9223286400) by reflexivity.
  rewrite Hmin, Hmax. unfold midnight, ymd2ord.
  rewrite days_before_month_1. unfold EPOCH_ORDINAL, SECONDS_PER_DAY.
  split; apply Z.leb_le; lia.
Qed.

Lemma midnight_year_end_bounds y :
  1678 <= y <= 2261 →
  (Timestamp_min_day <=? midnight y 12 31) = true ∧
  (midnight y 12 31 <=? Timestamp_max_day) = true.
Proof.
  intros Hy. pose proof (days_before_year_bounds y Hy) as Hb.
  assert (Hmin : Timestamp_min_day = -9223286400) by reflexivity.
  assert (Hmax : Timestamp_max_day = 9223286400) by reflexivity.
  rewrite Hmin, Hmax. unfold midnight, ymd2ord.
  rewrite days_before_month_12. unfold EPOCH_ORDINAL, SECONDS_PER_DAY.
  destruct (is_leap y); split; apply Z.leb_le; lia.
Qed.

Lemma to_datetime_year_start year y :
  year_number year = Some y → 1678 <= y <= 2261 →
  to_datetime (year +:+ "-01-01") = Ok (midnight y 1 1).
Proof.
  intros Hn Hy. unfold to_datetime.
  rewrite (proj1 (parse_year_dates year y Hn)).
  destruct (midnight_year_start_bounds y Hy) as [H1 H2].
  rewrite H1, H2. reflexivity.
Qed.

Lemma to_datetime_year_end year y :
  year_number year = Some y → 1678 <= y <= 2261 →
  to_datetime (year +:+ "-12-31") = Ok (midnight y 12 31).
Proof.
  intros Hn Hy. unfold to_datetime.
  rewrite (proj2 (parse_year_dates year y Hn)).
  destruct (midnight_year_end_bounds y Hy) as [H1 H2].
  rewrite H1, H2. reflexivity.
Qed.

(** The index [make_time_series] builds for a year it can date. *)
Lemma DatetimeIndex_year year y :
  year_number year = Some y → 1678 <= y <= 2261 →
  DatetimeIndex (year +:+ "-01-01") (year +:+ "-12-31") = Ok (year_days y).
Proof.
  intros Hn Hy. unfold DatetimeIndex.
  rewrite (to_datetime_year_start year y Hn Hy), (to_datetime_year_end year y Hn Hy).
  reflexivity.
Qed.

Lemma daily_range_length a b :
  length (daily_range a b) = Z.to_nat ((b - a) / SECONDS_PER_DAY + 1).
Proof. unfold daily_range. rewrite length_map, length_seq. reflexivity. Qed.

Lemma year_days_length y :
  length (year_days y) = if is_leap y then 366%nat else 365%nat.
Proof.
  unfold year_days. rewrite daily_range_length, year_span.
  rewrite Z.div_mul by (unfold SECONDS_PER_DAY; lia).
  destruct (is_leap y); reflexivity.
Qed.

Lemma daily_range_lookup a b (k : nat) :
  (k < length (daily_range a b))%nat →
  daily_range a b !! k = Some (a + Z.of_nat k * SECONDS_PER_DAY).
Proof.
  intros Hk. unfold daily_range in *. rewrite length_map, length_seq in Hk.
  rewrite list_lookup_fmap, lookup_seq_lt by lia. reflexivity.
Qed.

Lemma year_days_head y : head (year_days y) = Some (midnight y 1 1).
Proof.
  rewrite head_lookup. pose proof (year_days_length y) as Hl.
  unfold year_days in *. rewrite daily_range_lookup.
  - f_equal. lia.
  - destruct (is_leap y); lia.
Qed.

Lemma year_days_last y : last (year_days y) = Some (midnight y 12 31).
Proof.
  rewrite last_lookup. pose proof (year_days_length y) as Hl.
  unfold year_days in *. rewrite daily_range_lookup by (destruct (is_leap y); lia).
  f_equal. pose proof (year_span y) as Hs.
  rewrite Hl. destruct (is_leap y); simpl pred; lia.
Qed.

Lemma daily_range_NoDup a b : NoDup (daily_range a b).
Proof.
  unfold daily_range. apply NoDup_fmap_2_strong; [|apply NoDup_seq].
  intros j k _ _. unfold SECONDS_PER_DAY. lia.
Qed.

End YearStrings.

Section Slices.

Context {A : Type}.

Lemma unique_NoDup (l : list Timestamp) : unique l = true ↔ NoDup l.
Proof.
  induction l as [|t l IH]; simpl.
  - split; [constructor|reflexivity].
  - rewrite andb_true_iff, negb_true_iff, IH, NoDup_cons.
    assert (existsb (Z.eqb t) l = false ↔ t ∉ l) as ->; [|reflexivity].
    rewrite <- not_true_iff_false, existsb_exists. split.
    + intros Hn Hin. apply Hn. exists t. split; [by apply list_elem_of_In|apply Z.eqb_refl].
    + intros Hn (x & Hin & Hx). apply Z.eqb_eq in Hx as <-. by apply Hn, list_elem_of_In.
Qed.

Lemma index_slice (s : Series A) lo hi : index (slice s lo hi) = slice (index s) lo hi.
Proof.
  unfold index, slice. rewrite <- fmap_drop, <- fmap_take, length_map. reflexivity.
Qed.

Lemma unique_slice (s : Series A) lo hi :
  unique (index s) = true → unique (index (slice s lo hi)) = true.
Proof.
  rewrite index_slice, !unique_NoDup. unfold slice. intros Hs.
  eapply sublist_NoDup; [exact Hs|].
  etrans; [apply sublist_take|apply sublist_drop].
Qed.

(** Between bounds that are not negative, a slice is a [take] of a [drop]. *)
Lemma slice_nonneg (l : list A) lo hi :
  0 <= lo <= hi → slice l lo hi = drop (Z.to_nat lo) (take (Z.to_nat hi) l).
Proof.
  intros H. unfold slice, slice_bound.
  destruct (Z.ltb_spec lo 0); [lia|]. destruct (Z.ltb_spec hi 0); [lia|].
  rewrite take_drop_commute.
  destruct (Z.le_gt_cases hi (Z.of_nat (length l))) as [Hhi|Hhi].
  - rewrite (Z.min_l hi), (Z.min_l lo) by lia. f_equal. f_equal. lia.
  - rewrite (Z.min_r hi) by lia. rewrite (take_ge l (Z.to_nat hi)) by lia.
    destruct (Z.le_gt_cases lo (Z.of_nat (length l))) as [Hlo|Hlo].
    + rewrite (Z.min_l lo) by lia. rewrite take_ge by lia. reflexivity.
    + rewrite (Z.min_r lo) by lia. rewrite !drop_ge; [reflexivity|lia|].
      rewrite length_take. lia.
Qed.

(** Slices that abut join into one slice. *)
Lemma slice_app (l : list A) lo mid hi :
  0 <= lo <= mid → mid <= hi → slice l lo mid ++ slice l mid hi = slice l lo hi.
Proof.
  intros H1 H2. rewrite !slice_nonneg by lia.
  rewrite <- (drop_take_drop (take (Z.to_nat hi) l) (Z.to_nat lo) (Z.to_nat mid)) by lia.
  rewrite take_take. f_equal. f_equal. f_equal. lia.
Qed.

(** A slice is no longer than its bounds are apart. *)
Lemma slice_length_le (l : list A) lo hi :
  lo <= hi → Z.of_nat (length (slice l lo hi)) <= hi - lo.
Proof.
  intros H. unfold slice, slice_bound. rewrite length_take, length_drop.
  destruct (Z.ltb_spec lo 0), (Z.ltb_spec hi 0); lia.
Qed.

(** A label the rows do not have reads as [NaN]. *)
Lemma at_label_missing (nan : A) (data : Series A) t :
  t ∉ index data → at_label nan data t = nan.
Proof.
  induction data as [|[t' v] data IH]; simpl; [done|].
  rewrite not_elem_of_cons. intros [Hne Hnin].
  destruct (Z.eqb_spec t' t); [congruence|]. by apply IH.
Qed.

End Slices.

Section MakeTimeSeriesFacts.

Context {A : Type}.
Variable nan : A.
Implicit Types (df : Series A) (years : list string) (year : string).

Lemma make_time_series_loop_acc df years start_idx acc :
  make_time_series_loop nan df years start_idx acc
  = (ts ← make_time_series_loop nan df years start_idx []; Ok (acc ++ ts)).
Proof.
  revert start_idx acc. induction years as [|year years IH]; intros start_idx acc; simpl.
  - by rewrite app_nil_r.
  - destruct (DatetimeIndex _ _) as [idx|e]; simpl; [|done].
    destruct (Series_of _ _ _) as [series|e]; simpl; [|done].
    rewrite (IH _ (acc ++ [series])), (IH _ [series]).
    destruct (make_time_series_loop _ _ _ _ []); simpl; [|done].
    by rewrite <- app_assoc.
Qed.

(** One pass of the loop, then the rest of it. *)
Lemma make_time_series_cons df year years start_idx :
  make_time_series nan df (year :: years) start_idx
  = (series ← year_series nan df year (start_idx, year_end_idx year start_idx);
     rest ← make_time_series nan df years (year_end_idx year start_idx);
     Ok (series :: rest)).
Proof.
  unfold make_time_series, year_series. simpl.
  destruct (DatetimeIndex _ _) as [idx|e]; simpl; [|done].
  destruct (Series_of _ _ _) as [series|e]; simpl; [|done].
  rewrite make_time_series_loop_acc. reflexivity.
Qed.

(** The series returned are those of the passes, in order: [year_windows]
    lists the rows each pass slices. *)
Lemma make_time_series_loop_trace df years start_idx time_series :
  make_time_series nan df years start_idx = Ok time_series ↔
  Forall2 (fun yw series => year_series nan df yw.1 yw.2 = Ok series)
          (zip years (year_windows years start_idx)) time_series.
Proof.
  revert start_idx time_series.
  induction years as [|year years IH]; intros start_idx time_series.
  - simpl. split.
    + intros [= <-]. constructor.
    + intros H. by inversion H.
  - rewrite make_time_series_cons. simpl. split.
    + destruct (year_series _ _ _ _) as [series|e] eqn:Es; simpl; [|done].
      destruct (make_time_series _ _ _ _) as [rest|e] eqn:Er; simpl; [|done].
      intros [= <-]. constructor; [exact Es|]. by apply IH.
    + intros H. inversion H as [|yw series l rest Hs Hrest]; subst.
      simpl in Hs. rewrite Hs. simpl.
      apply IH in Hrest. rewrite Hrest. reflexivity.
Qed.

Lemma year_windows_length years start_idx :
  length (year_windows years start_idx) = length years.
Proof.
  revert start_idx. induction years as [|year years IH]; intros start_idx; simpl;
    [reflexivity|by rewrite IH].
Qed.

Lemma year_end_idx_width year start_idx :
  year_end_idx year start_idx - start_idx = if String.eqb year "2008" then 366 else 365.
Proof. unfold year_end_idx, leap. destruct (String.eqb year "2008"); lia. Qed.

(** The rows a pass slices are 366 for the year ['2008'] and 365 for any
    other. *)
Lemma year_windows_width years start_idx (i : nat) year w :
  years !! i = Some year → year_windows years start_idx !! i = Some w →
  w.2 - w.1 = if String.eqb year "2008" then 366 else 365.
Proof.
  revert start_idx i. induction years as [|y years IH]; intros start_idx [|i]; simpl;
    try done.
  - intros [= ->] [= <-]. simpl. apply year_end_idx_width.
  - apply IH.
Qed.

Lemma year_windows_head year years start_idx :
  head (year_windows (year :: years) start_idx)
  = Some (start_idx, year_end_idx year start_idx).
Proof. reflexivity. Qed.

(** Each pass starts where the one before stopped. *)
Lemma year_windows_abut years start_idx (i : nat) w w' :
  year_windows years start_idx !! i = Some w →
  year_windows years start_idx !! S i = Some w' →
  w'.1 = w.2.
Proof.
  revert start_idx i. induction years as [|y years IH]; intros start_idx [|i]; simpl;
    try done.
  - intros [= <-]. destruct years; simpl; [done|]. by intros [= <-].
  - apply IH.
Qed.

Lemma final_idx_ge years start_idx : start_idx <= final_idx years start_idx.
Proof.
  revert start_idx. induction years as [|y years IH]; intros start_idx; simpl; [lia|].
  unfold final_idx in *. simpl. specialize (IH (year_end_idx y start_idx)).
  pose proof (year_end_idx_width y start_idx). destruct (String.eqb y "2008"); lia.
Qed.

(** Together the passes slice one block of rows, from the first
    [start_idx] on. *)
Lemma year_windows_cover df years start_idx :
  0 <= start_idx →
  concat (map (fun w => slice df w.1 w.2) (year_windows years start_idx))
  = slice df start_idx (final_idx years start_idx).
Proof.
  revert start_idx. induction years as [|y years IH]; intros start_idx Hs; simpl.
  - unfold final_idx. simpl. rewrite slice_nonneg by lia.
    rewrite drop_ge; [done|]. rewrite length_take. lia.
  - pose proof (year_end_idx_width y start_idx) as Hw.
    assert (start_idx < year_end_idx y start_idx) as Hlt
      by (destruct (String.eqb y "2008"); lia).
    rewrite IH by lia. unfold final_idx at 2. simpl. fold (final_idx years (year_end_idx y start_idx)).
    apply slice_app; [lia|apply final_idx_ge].
Qed.

End MakeTimeSeriesFacts.

Section MakeTimeSeriesYears.

Context {A : Type}.
Variable nan : A.
Implicit Types (df : Series A) (years : list string) (year : string).

(** The pass for a year the frame can be dated with: the series has the
    days of that year for labels, and at each the value the sliced rows hold
    for that day. *)
Lemma year_series_valid df year y w :
  unique (index df) = true → year_number year = Some y → 1678 <= y <= 2261 →
  year_series nan df year w
  = Ok (map (fun t => (t, at_label nan (slice df w.1 w.2) t)) (year_days y)).
Proof.
  intros Hu Hn Hy. unfold year_series.
  rewrite (DatetimeIndex_year year y Hn Hy). simpl.
  unfold Series_of. rewrite (unique_slice df w.1 w.2 Hu). reflexivity.
Qed.

(** On a frame whose labels do not repeat, and for years it can date, the
    function returns. *)
Lemma make_time_series_returns df years start_idx :
  unique (index df) = true →
  Forall (fun year => valid_year year = true) years →
  ∃ time_series, make_time_series nan df years start_idx = Ok time_series.
Proof.
  intros Hu Hv. revert start_idx.
  induction Hv as [|year years Hy _ IH]; intros start_idx.
  - by exists [].
  - rewrite make_time_series_cons.
    destruct (valid_year_number year Hy) as (y & Hn & Hb).
    rewrite (year_series_valid df year y _ Hu Hn Hb). simpl.
    destruct (IH (year_end_idx year start_idx)) as [rest ->]. simpl. eauto.
Qed.

(** What a returned list holds at each position. *)
Lemma make_time_series_lookup df years start_idx time_series (i : nat) year :
  make_time_series nan df years start_idx = Ok time_series →
  years !! i = Some year →
  ∃ w series, year_windows years start_idx !! i = Some w ∧
              time_series !! i = Some series ∧
              year_series nan df year w = Ok series.
Proof.
  intros Hr Hi. apply make_time_series_loop_trace in Hr.
  assert (is_Some (year_windows years start_idx !! i)) as [w Hw].
  { apply lookup_lt_is_Some. rewrite year_windows_length.
    by apply lookup_lt_Some in Hi. }
  assert (zip years (year_windows years start_idx) !! i = Some (year, w)) as Hz.
  { apply lookup_zip_with_Some. eauto. }
  destruct (Forall2_lookup_l _ _ _ _ _ Hr Hz) as (series & Hs & Hb).
  exists w, series. auto.
Qed.

End MakeTimeSeriesYears.

(** ** [make_time_series]: the size of a year's series, and the rows it reads *)

Section MakeTimeSeriesTheorems.

Context {A : Type}.
Variable nan : A.
Implicit Types (df : Series A) (years : list string) (year : string).

(** The labels of a year's days are one day apart. *)
Lemma year_days_step y (j : nat) t t' :
  year_days y !! j = Some t → year_days y !! S j = Some t' → t' = t + SECONDS_PER_DAY.
Proof.
  unfold year_days, daily_range. rewrite !list_lookup_fmap.
  intros Ht Ht'.
  destruct (seq _ _ !! j) as [k|] eqn:Hk; [|done].
  destruct (seq _ _ !! S j) as [k'|] eqn:Hk'; [|done].
  apply lookup_seq in Hk as [-> _]. apply lookup_seq in Hk' as [-> _].
  simpl in Ht, Ht'. injection Ht as <-. injection Ht' as <-. lia.
Qed.


(** Claim C10.  [make_time_series] takes the rows of the frame in slices that
    abut: the pass for a year slices the rows [start_idx, end_idx) and leaves
    [start_idx = end_idx] to the next.  So the first pass starts at the
    initial [start_idx], each later pass starts where the one before stopped,
    no pass is empty, and together the slices are the one block of rows from
    the initial [start_idx] to the last [end_idx]; whenever the function
    returns, the list has one series per requested year, in the given order,
    each built from the rows of its own pass; and it returns for the years it
    can date, on a frame whose labels do not repeat. *)
Theorem make_time_series_contiguous df years start_idx :
  length (year_windows years start_idx) = length years ∧
  (∀ w, head (year_windows years start_idx) = Some w → w.1 = start_idx) ∧
  (∀ (i : nat) w w', year_windows years start_idx !! i = Some w →
                     year_windows years start_idx !! S i = Some w' →
                     w'.1 = w.2) ∧
  (∀ (i : nat) year w, years !! i = Some year →
                       year_windows years start_idx !! i = Some w →
                       w.2 = year_end_idx year w.1 ∧ w.1 < w.2) ∧
  (0 <= start_idx →
   concat (map (fun w => slice df w.1 w.2) (year_windows years start_idx))
   = slice df start_idx (final_idx years start_idx)) ∧
  (∀ time_series,
     make_time_series nan df years start_idx = Ok time_series →
     length time_series = length years ∧
     ∀ (i : nat) year, years !! i = Some year →
       ∃ w series, year_windows years start_idx !! i = Some w ∧
                   time_series !! i = Some series ∧
                   year_series nan df year w = Ok series) ∧
  (unique (index df) = true →
   Forall (fun year => valid_year year = true) years →
   ∃ time_series, make_time_series nan df years start_idx = Ok time_series).
Proof.
  split; [apply year_windows_length|].
  split.
  { intros w. destruct years as [|year years']; simpl; [done|]. by intros [= <-]. }
  split; [apply year_windows_abut|].
  split.
  { intros i year w Hi Hw.
    pose proof (year_windows_width years start_idx i year w Hi Hw) as Hwd.
    pose proof (year_end_idx_width year w.1) as He.
    destruct (String.eqb year "2008"); lia. }
  split; [apply year_windows_cover|].
  split; [|apply make_time_series_returns].
  intros time_series Hr. split.
  - apply make_time_series_loop_trace in Hr. apply Forall2_length in Hr.
    rewrite length_zip_with, year_windows_length in Hr. lia.
  - intros i year Hi.
    by apply (make_time_series_lookup nan df years start_idx time_series i year).
Qed.

End MakeTimeSeriesTheorems.


(** A leap year other than 2008.  The frame holds the 366 days of 2012; the
    series for ['2012'] has 366 points, from January 1 through December 31.
    The pass slices the rows 0 to 364 (the bounds are 365 apart for every
    year string but ['2008']), so the point of December 31 holds [NaN]. *)
Lemma make_time_series_2012 :
  is_leap 2012 = true ∧
  length frame_2012 = 366%nat ∧
  year_windows ["2012"] 0 = [(0, 365)] ∧
  ∃ series,
    make_time_series None frame_2012 ["2012"] 0 = Ok [series] ∧
    length series = 366%nat ∧
    head (index series) = Some (midnight 2012 1 1) ∧
    last series = Some (midnight 2012 12 31, None) ∧
    length (observed series) = 365%nat.
Proof.
  split; [reflexivity|]. split; [reflexivity|]. split; [reflexivity|].
  eexists. split; [vm_compute; reflexivity|].
  split; [reflexivity|]. split; vm_compute; auto.
Qed.

(** The notebook's call again: its three passes slice the rows 16 to 380,
    381 to 746 and 747 to 1111. *)
Lemma make_time_series_contiguous_witness :
  0 <= default_start_idx ∧
  unique (index frame_from_2006) = true ∧
  Forall (fun year => valid_year year = true) ["2007"; "2008"; "2009"] ∧
  year_windows ["2007"; "2008"; "2009"] default_start_idx
  = [(16, 381); (381, 747); (747, 1112)] ∧
  concat (map (fun w => slice frame_from_2006 w.1 w.2)
              (year_windows ["2007"; "2008"; "2009"] default_start_idx))
  = slice frame_from_2006 16 1112 ∧
  ∃ time_series,
    make_time_series None frame_from_2006 ["2007"; "2008"; "2009"] default_start_idx
    = Ok time_series ∧
    length time_series = 3%nat.
Proof.
  assert (0 <= default_start_idx) as H0 by (unfold default_start_idx; lia).
  assert (unique (index frame_from_2006) = true) as Hu by (vm_compute; reflexivity).
  assert (Forall (fun year => valid_year year = true) ["2007"; "2008"; "2009"]) as Hv
    by (repeat constructor).
  destruct (make_time_series_contiguous None frame_from_2006 ["2007"; "2008"; "2009"]
              default_start_idx)
    as (_ & _ & _ & _ & Hcover & Hreturned & Hreturns).
  split; [exact H0|]. split; [exact Hu|]. split; [exact Hv|].
  split; [reflexivity|]. split; [exact (Hcover H0)|].
  destruct (Hreturns Hu Hv) as [time_series Hr].
  exists time_series. split; [exact Hr|]. exact (proj1 (Hreturned time_series Hr)).
Defined.

(** ** Daily resampling *)

Section Resample.

Lemma foldr_min_le d ds x : x ∈ d :: ds → foldr Z.min d ds <= x.
Proof.
  induction ds as [|e ds IH]; simpl.
  - intros Hx%list_elem_of_singleton. lia.
  - rewrite !elem_of_cons. intros [Hx|[Hx|Hx]].
    + assert (foldr Z.min d ds <= x) by (apply IH; rewrite Hx; left). lia.
    + lia.
    + assert (foldr Z.min d ds <= x) by (apply IH; by right). lia.
Qed.

Lemma foldr_max_ge d ds x : x ∈ d :: ds → x <= foldr Z.max d ds.
Proof.
  induction ds as [|e ds IH]; simpl.
  - intros Hx%list_elem_of_singleton. lia.
  - rewrite !elem_of_cons. intros [Hx|[Hx|Hx]].
    + assert (x <= foldr Z.max d ds) by (apply IH; rewrite Hx; left). lia.
    + lia.
    + assert (x <= foldr Z.max d ds) by (apply IH; by right). lia.
Qed.

Lemma foldr_min_in d ds : foldr Z.min d ds ∈ d :: ds.
Proof.
  induction ds as [|e ds IH]; simpl; [left|].
  destruct (Z.min_spec e (foldr Z.min d ds)) as [[_ ->]|[_ ->]].
  - right; left.
  - apply elem_of_cons in IH as [->|H]; [left|by do 2 right].
Qed.

Lemma foldr_max_in d ds : foldr Z.max d ds ∈ d :: ds.
Proof.
  induction ds as [|e ds IH]; simpl; [left|].
  destruct (Z.max_spec e (foldr Z.max d ds)) as [[_ ->]|[_ ->]].
  - apply elem_of_cons in IH as [->|H]; [left|by do 2 right].
  - right; left.
Qed.

#[local] Instance day_start_inj : Inj (=) (=) day_start.
Proof. intros x y. unfold day_start, SECONDS_PER_DAY. lia. Qed.

Lemma day_of_day_start d : day_of (day_start d) = d.
Proof. unfold day_of, day_start. apply Z.div_mul. unfold SECONDS_PER_DAY. lia. Qed.

(** Putting the rows in the order of their stamps keeps the rows, and
    leaves rows that are in that order as they are. *)
Lemma insert_row_perm {A} (r : Timestamp * A) (rows : Series A) :
  Permutation (insert_row r rows) (r :: rows).
Proof.
  induction rows as [|r' rows IH]; simpl; [done|].
  destruct (r.1 <=? r'.1); [done|].
  etrans; [apply perm_skip, IH|]. apply perm_swap.
Qed.

Lemma chronological_perm {A} (s : Series A) : Permutation (chronological s) s.
Proof.
  induction s as [|r s IH]; simpl; [done|].
  etrans; [apply insert_row_perm|]. by apply perm_skip.
Qed.

Lemma chronological_sorted {A} (s : Series A) :
  Sorted Z.le (index s) → chronological s = s.
Proof.
  induction s as [|r s IH]; simpl; [done|].
  intros Hs. apply Sorted_inv in Hs as [Hs Hhd].
  rewrite (IH Hs). destruct s as [|r' s']; simpl; [done|].
  simpl in Hhd. apply HdRel_inv in Hhd.
  destruct (Z.leb_spec r.1 r'.1); [done|lia].
Qed.

(** The values of a day are the values of the rows stamped on that day. *)
Lemma on_day_perm {A} (s : Series A) d :
  Permutation (on_day s d) (values (filter (fun row => day_of row.1 = d) s)).
Proof.
  unfold on_day, values. apply Permutation_map.
  by rewrite chronological_perm.
Qed.

Lemma on_day_sorted {A} (s : Series A) d :
  Sorted Z.le (index s) → on_day s d = values (filter (fun row => day_of row.1 = d) s).
Proof. intros Hs. unfold on_day. by rewrite chronological_sorted. Qed.

Lemma on_day_covered {A} (s : Series A) d : on_day s d ≠ [] → covered s d.
Proof.
  intros Hne.
  assert (values (filter (fun row => day_of row.1 = d) s) ≠ []) as Hne'.
  { intros E. apply Hne. apply Permutation_nil_r. rewrite <- E. apply on_day_perm. }
  unfold values in Hne'.
  destruct (filter _ s) as [|r rs] eqn:Hf; [done|].
  assert (r ∈ filter (fun row => day_of row.1 = d) s) as Hr by (rewrite Hf; left).
  apply list_elem_of_filter in Hr as [Hd Hr].
  exists r, r. rewrite Hd. repeat split; try done; lia.
Qed.

(** A day has values where a row is stamped on it. *)
Lemma on_day_rows {A} (s : Series A) d :
  on_day s d ≠ [] ↔ ∃ r, r ∈ s ∧ day_of r.1 = d.
Proof.
  split.
  - intros Hne.
    assert (values (filter (fun row => day_of row.1 = d) s) ≠ []) as Hne'.
    { intros E. apply Hne. apply Permutation_nil_r. rewrite <- E. apply on_day_perm. }
    unfold values in Hne'.
    destruct (filter _ s) as [|r rs] eqn:Hf; [done|].
    assert (r ∈ filter (fun row => day_of row.1 = d) s) as Hr by (rewrite Hf; left).
    apply list_elem_of_filter in Hr as [Hd Hr]. eauto.
  - intros (r & Hr & Hd) E.
    assert (r ∈ filter (fun row => day_of row.1 = d) s) as Hf
      by (by apply list_elem_of_filter).
    pose proof (on_day_perm s d) as Hp. rewrite E in Hp.
    apply Permutation_nil in Hp. unfold values in Hp.
    apply (f_equal length) in Hp. rewrite length_map in Hp.
    destruct (filter _ s); [by apply elem_of_nil in Hf|done].
Qed.

Variable float_mean : list float → float.

(** The bins are the days from the earliest row's to the latest row's. *)
Lemma resample_D_mean_rows (s : Series float) t v :
  (t, v) ∈ resample_D_mean float_mean s ↔
  ∃ d, t = day_start d ∧ v = bin_mean float_mean (on_day s d) ∧ covered s d.
Proof.
  unfold resample_D_mean, covered.
  destruct (map day_of (index s)) as [|d0 ds] eqn:Hdays.
  - split; [by intros ?%elem_of_nil|].
    intros (d & _ & _ & r1 & _ & Hr1 & _).
    destruct s; [by apply elem_of_nil in Hr1|discriminate].
  - assert (∀ x, x ∈ d0 :: ds ↔ ∃ r, r ∈ s ∧ day_of r.1 = x) as Hin.
    { intros x. rewrite <- Hdays. unfold index.
      rewrite <- !list_fmap_compose, list_elem_of_fmap. split.
      - intros (r & -> & Hr). eauto.
      - intros (r & Hr & <-). eauto. }
    rewrite list_elem_of_fmap. split.
    + intros (d & [= -> ->] & Hd%elem_of_seqZ). exists d. do 2 (split; [done|]).
      destruct (proj1 (Hin _) (foldr_min_in d0 ds)) as (r1 & Hr1 & E1).
      destruct (proj1 (Hin _) (foldr_max_in d0 ds)) as (r2 & Hr2 & E2).
      exists r1, r2. rewrite E1, E2. repeat split; try done; lia.
    + intros (d & -> & -> & r1 & r2 & Hr1 & Hr2 & Hle). exists d. split; [done|].
      apply elem_of_seqZ.
      assert (foldr Z.min d0 ds <= day_of r1.1) by (apply foldr_min_le, Hin; eauto).
      assert (day_of r2.1 <= foldr Z.max d0 ds) by (apply foldr_max_ge, Hin; eauto).
      lia.
Qed.

Lemma resample_D_mean_NoDup (s : Series float) :
  NoDup (index (resample_D_mean float_mean s)).
Proof.
  unfold resample_D_mean, index.
  destruct (map day_of (map fst s)) as [|d0 ds]; [constructor|].
  rewrite map_map. simpl.
  apply (NoDup_fmap_2 day_start), NoDup_seqZ.
Qed.

End Resample.



(** ** [create_training_series] and [series_to_json_obj]: bodies left to write *)

Section Exercises.

Context {A : Type}.

Lemma create_training_series_None (complete_time_series : list (Series A))
    (prediction_length : Z) :
  create_training_series complete_time_series prediction_length = Ok None.
Proof. reflexivity. Qed.

Lemma series_to_json_obj_None (ts : Series A) : series_to_json_obj ts = PyNone.
Proof. reflexivity. Qed.

(** Nothing reads a series back from what [series_to_json_obj] returns. *)
Lemma series_to_json_obj_no_decoder (decode : pyval → Series A) (t : Timestamp) (v : A) :
  ∃ ts : Series A, decode (series_to_json_obj ts) ≠ ts.
Proof.
  destruct (decide (decode PyNone = [])) as [E|E].
  - exists [(t, v)]. simpl. unfold series_to_json_obj. rewrite E. discriminate.
  - exists []. exact E.
Qed.

End Exercises.

(** Claim C1, at a failing input.  For the series of the 365 days of 2007
    and a horizon of thirty days, the claim has [create_training_series]
    return the list of the one series cut to its first 335 days, a prefix that
    gives the series back when the thirty days cut are put after it; the code
    returns [None]. *)
Theorem create_training_series_returns_None :
  create_training_series [year_2007] 30 = Ok None ∧
  length year_2007 = 365%nat ∧
  length (without_last 30 year_2007) = 335%nat ∧
  without_last 30 year_2007 ++ drop 335 year_2007 = year_2007 ∧
  create_training_series [year_2007] 30 ≠ Ok (Some (map (without_last 30) [year_2007])).
Proof.
  split; [reflexivity|]. split; [reflexivity|]. split; [reflexivity|].
  split; [apply take_drop|discriminate].
Qed.

(** Claim C3, at a failing input.  For the three-day series from 2007-01-01
    [series_to_json_obj] returns [None], not a record: it has no [start] and
    no [target] to read, and subscripting it raises. *)
Theorem series_to_json_obj_returns_None :
  series_to_json_obj series_2007 = PyNone ∧
  getitem_str (series_to_json_obj series_2007) "start" = Raise TypeError ∧
  getitem_str (series_to_json_obj series_2007) "target" = Raise TypeError.
Proof. repeat split. Qed.

(** Claim C5, as the code has it.  [create_training_series] checks no length
    and raises no error: whatever series and horizon it is given, also a
    series shorter than the horizon, the call returns. *)
Theorem create_training_series_never_raises {A} (complete_time_series : list (Series A))
    (prediction_length : Z) :
  raises (create_training_series complete_time_series prediction_length) = false.
Proof. reflexivity. Qed.

(** Claim C5 fails as stated: given a series of three points and a horizon
    of thirty, the call raises nothing. *)
Lemma create_training_series_short_counterexample :
  Z.of_nat (length series_2007) < 30 ∧
  raises (create_training_series [series_2007] 30) = false.
Proof. split; [vm_compute|]; reflexivity. Qed.

(** Claim C6, at a failing input.  Two series that differ in their start and
    in their values are encoded alike, so no decoding gives back the start and
    the values of both. *)
Theorem series_to_json_obj_not_injective :
  series_2007 ≠ series_2008 ∧
  head (index series_2007) = Some (midnight 2007 1 1) ∧
  head (index series_2008) = Some (midnight 2008 1 1) ∧
  series_to_json_obj series_2007 = series_to_json_obj series_2008.
Proof.
  split; [|repeat split].
  intros H%(f_equal length). discriminate H.
Qed.

(** ** [write_json_dataset] and [json_predictor_input] *)

Section JsonOutput.

Context {A : Type}.
Variable float_repr : float → string.
Implicit Types (time_series input_ts : list (Series A)) (w : world).

Lemma write_json_line_file filename w (ts : Series A) :
  files (write_json_line float_repr filename w ts) !! filename
  = Some (default [] (files w !! filename) ++ json_line float_repr ts).
Proof. apply lookup_insert_eq. Qed.

Lemma write_json_line_other filename w (ts : Series A) other :
  other ≠ filename →
  files (write_json_line float_repr filename w ts) !! other = files w !! other.
Proof. intros Hne. by apply lookup_insert_ne. Qed.

Lemma write_json_lines filename w time_series :
  files (foldl (write_json_line float_repr filename) w time_series) !! filename
  = (if time_series is [] then files w !! filename
     else Some (default [] (files w !! filename) ++ json_lines float_repr time_series)) ∧
  (∀ other, other ≠ filename →
     files (foldl (write_json_line float_repr filename) w time_series) !! other
     = files w !! other) ∧
  stdout (foldl (write_json_line float_repr filename) w time_series) = stdout w ∧
  openable (foldl (write_json_line float_repr filename) w time_series) = openable w.
Proof.
  revert w. induction time_series as [|ts rest IH]; intros w; [done|].
  cbn [foldl].
  destruct (IH (write_json_line float_repr filename w ts)) as (Hf & Ho & Hs & Hop).
  split; [|split; [|split]].
  - rewrite Hf, write_json_line_file. unfold json_lines. cbn [map concat].
    destruct rest; cbn [map concat from_option id].
    + reflexivity.
    + by rewrite <- app_assoc.
  - intros other Hne. rewrite (Ho other Hne). by apply write_json_line_other.
  - rewrite Hs. reflexivity.
  - rewrite Hop. reflexivity.
Qed.

(** Where the file can be opened, the call returns, and the file holds one
    line per series, in the order of the list: the JSON text of what
    [series_to_json_obj] returns for it, then a newline, as UTF-8; the other
    files are left alone, and one line is printed. *)
Lemma write_json_dataset_file filename w time_series :
  openable w filename = true →
  ∃ w', write_json_dataset float_repr (Some time_series) filename w = (w', Ok ()) ∧
        files w' !! filename = Some (json_lines float_repr time_series) ∧
        (∀ other, other ≠ filename → files w' !! other = files w !! other) ∧
        stdout w' = stdout w ++ [filename +:+ " saved."] ∧
        openable w' = openable w.
Proof.
  intros Hopen. unfold write_json_dataset, open_wb. rewrite Hopen.
  eexists. split; [reflexivity|]. unfold print. cbn [files stdout openable].
  set (w0 := {| files := <[filename := []]> (files w); stdout := stdout w;
                openable := openable w |}).
  destruct (write_json_lines filename w0 time_series) as (Hf & Ho & Hs & Hop).
  assert (files w0 !! filename = Some []) as Hw0 by apply lookup_insert_eq.
  split; [|split; [|split]].
  - rewrite Hf, Hw0. by destruct time_series.
  - intros other Hne. rewrite (Ho other Hne). by apply lookup_insert_ne.
  - by rewrite Hs.
  - by rewrite Hop.
Qed.

(** Where the file cannot be opened, the call raises, and nothing is
    written or printed. *)
Lemma write_json_dataset_closed filename w (time_series : option (list (Series A))) :
  openable w filename = false →
  write_json_dataset float_repr time_series filename w = (w, Raise OSError).
Proof. intros Hopen. unfold write_json_dataset, open_wb. by rewrite Hopen. Qed.

(** Given [None] for the list, the call opens the file, which empties it,
    and raises; nothing is printed. *)
Lemma write_json_dataset_None filename w :
  openable w filename = true →
  ∃ w', write_json_dataset float_repr (@None (list (Series A))) filename w
        = (w', Raise TypeError) ∧
        files w' !! filename = Some [] ∧
        (∀ other, other ≠ filename → files w' !! other = files w !! other) ∧
        stdout w' = stdout w ∧
        openable w' = openable w.
Proof.
  intros Hopen. unfold write_json_dataset, open_wb. rewrite Hopen.
  eexists. split; [reflexivity|]. cbn [files stdout openable].
  split; [apply lookup_insert_eq|].
  split; [|done]. intros other Hne. by apply lookup_insert_ne.
Qed.

(** As the encoder returns [None] for every series, every line is [null]. *)
Lemma json_lines_null time_series :
  json_lines float_repr time_series
  = concat (replicate (length time_series) (encode_utf8 ("null" +:+ newline))).
Proof.
  unfold json_lines. induction time_series as [|ts rest IH]; simpl; [done|].
  by rewrite IH.
Qed.

Lemma instances_loop_acc input_ts (instances : list pyval) :
  instances_loop input_ts instances = instances ++ map series_to_json_obj input_ts.
Proof.
  revert instances. induction input_ts as [|ts rest IH]; intros instances; simpl.
  - by rewrite app_nil_r.
  - rewrite IH. by rewrite <- app_assoc.
Qed.

(** The request has one instance per input series, in the order of the
    list: what [series_to_json_obj] returns for it, which is [None]. *)
Lemma request_data_shape input_ts num_samples quantiles :
  request_data input_ts num_samples quantiles
  = PyDict [("instances", PyList (map series_to_json_obj input_ts));
            ("configuration", configuration_of num_samples quantiles)] ∧
  map series_to_json_obj input_ts = replicate (length input_ts) PyNone.
Proof.
  unfold request_data. rewrite instances_loop_acc. split; [done|].
  induction input_ts as [|ts rest IH]; simpl; [done|by rewrite IH].
Qed.

End JsonOutput.

(** Claim C7, at a failing input.  For the list of the two example series
    the file holds two lines, in order, each ended by a newline and encoded
    as UTF-8; but each line is [null], not a record
    [{"start": ..., "target": [...]}], as [series_to_json_obj] returns [None]
    for every series. *)
Theorem write_json_dataset_null_lines (float_repr : float → string) :
  (write_json_dataset float_repr (Some [series_2007; series_2008]) "train.json"
     empty_world).2 = Ok () ∧
  files (write_json_dataset float_repr (Some [series_2007; series_2008]) "train.json"
           empty_world).1
    !! "train.json"
  = Some (encode_utf8 ("null" +:+ newline +:+ "null" +:+ newline)).
Proof.
  destruct (write_json_dataset_file float_repr "train.json" empty_world
              [series_2007; series_2008] eq_refl) as (w' & -> & Hf & _).
  split; [reflexivity|]. cbn [fst]. rewrite Hf. reflexivity.
Qed.

(** Claim C8, at a failing input.  For the list of the two example series
    the request has the configuration the claim states and one instance per
    series; but each instance is [None] (JSON [null]), not a record with a
    [start] and a [target], as [series_to_json_obj] returns [None] for every
    series. *)
Theorem json_predictor_input_null_instances (float_repr : float → string) :
  request_data [series_2007; series_2008] default_num_samples default_quantiles
  = PyDict [("instances", PyList [PyNone; PyNone]);
            ("configuration",
             PyDict [("num_samples", PyInt 50);
                     ("output_types", PyList [PyStr "quantiles"]);
                     ("quantiles", PyList [PyStr "0.1"; PyStr "0.5"; PyStr "0.9"])])] ∧
  json_predictor_input float_repr [series_2007; series_2008] default_num_samples
    default_quantiles
  = encode_utf8
      ("{" +:+ json_quote "instances" +:+ ": [null, null], "
           +:+ json_quote "configuration" +:+ ": {"
           +:+ json_quote "num_samples" +:+ ": 50, "
           +:+ json_quote "output_types" +:+ ": [" +:+ json_quote "quantiles" +:+ "], "
           +:+ json_quote "quantiles" +:+ ": [" +:+ json_quote "0.1" +:+ ", "
           +:+ json_quote "0.5" +:+ ", " +:+ json_quote "0.9" +:+ "]}}").
Proof. split; reflexivity. Qed.

(** ** [decode_prediction] *)

Section DataFrameFacts.

Variable column_values : pyval → nat → list pyval.

Lemma omap_as_list_lists (cols : list (string * pyval)) (L : nat) :
  Forall (fun kv => ∃ vs, kv.2 = PyList vs ∧ length vs = L) cols →
  length (omap as_list (map snd cols)) = length cols ∧
  Forall (fun c => length c = L) (omap as_list (map snd cols)) ∧
  existsb is_dict (map snd cols) = false.
Proof.
  induction 1 as [|[k v] cols (vs & Hv & Hlen) _ (IHl & IHf & IHd)]; [done|].
  simpl in Hv. subst v. cbn. rewrite IHl. split; [done|]. split; [|done].
  by constructor.
Qed.

(** The table of a dict that maps every key to a list of [L] values. *)
Lemma DataFrame_of_lists (cols : list (string * pyval)) (L : nat) :
  Forall (fun kv => ∃ vs, kv.2 = PyList vs ∧ length vs = L) cols →
  DataFrame_of column_values (PyDict cols)
  = Ok {| columns := map fst cols;
          nrows := (if cols is [] then 0 else L)%nat;
          cells := map (fun v => column_values v L) (map snd cols) |}.
Proof.
  intros Hwf. destruct (omap_as_list_lists cols L Hwf) as (Hlen & Hall & Hd).
  destruct cols as [|kv cols]; [reflexivity|].
  unfold DataFrame_of. rewrite Hd.
  destruct (omap as_list (map snd (kv :: cols))) as [|c cs]; [done|].
  apply Forall_cons in Hall as [Hc Hcs].
  assert (forallb (fun c' => length c' =? length c)%nat cs = true) as ->.
  { apply forallb_forall. intros c' Hin%list_elem_of_In.
    rewrite Forall_forall in Hcs. apply Nat.eqb_eq. rewrite Hc. by apply Hcs. }
  simpl. by rewrite Hc.
Qed.

End DataFrameFacts.

Section DecodePrediction.

Variable bytes_decode : list byte → string → result string.
Variable json_loads : string → result pyval.
Variable column_values : pyval → nat → list pyval.

(** The loop appends the table of each remaining record, in order. *)
Lemma decode_prediction_loop_tables prediction_data preds (k n : nat) acc :
  getitem_str prediction_data "predictions" = Ok (PyList preds) →
  (k + n)%nat = length preds →
  Forall (fun p => ∃ df, decode_record column_values p = Ok df) (drop k preds) →
  ∃ tables,
    decode_prediction_loop column_values prediction_data k n acc = Ok (acc ++ tables) ∧
    Forall2 (fun p df => decode_record column_values p = Ok df) (drop k preds) tables.
Proof.
  intros Hp. revert k acc. induction n as [|n IH]; intros k acc Hk Hall.
  - exists []. simpl. rewrite app_nil_r. split; [done|].
    rewrite drop_ge by lia. constructor.
  - destruct (lookup_lt_is_Some_2 preds k) as [p Hpk]; [lia|].
    rewrite (drop_S _ _ _ Hpk) in Hall |- *.
    apply Forall_cons in Hall as [(df & Hdf) Hrest].
    destruct (IH (S k) (acc ++ [df])) as (tables & Hloop & Htables); [lia|done|].
    exists (df :: tables). split.
    + simpl. rewrite Hp. simpl. rewrite Hpk. simpl.
      unfold decode_record in Hdf.
      destruct (getitem_str p "quantiles") as [q|e]; [|done]. simpl in Hdf |- *.
      rewrite Hdf. simpl. rewrite Hloop. by rewrite <- app_assoc.
    + constructor; [eauto|done].
Qed.

(** Claim C9, as the code has it.  For a response whose every record maps,
    under ["quantiles"], each requested label and no other to a list of
    [prediction_length] values, [decode_prediction] returns one table per
    record, in the order of the records (table [i] is the one decoded from
    record [i]); a table has one column per requested label; it has
    [prediction_length] rows when at least one label was requested, and no
    row when none was. *)
Theorem decode_prediction_tables prediction encoding text prediction_data preds
    (labels : list string) (prediction_length : nat) :
  bytes_decode prediction encoding = Ok text →
  json_loads text = Ok prediction_data →
  getitem_str prediction_data "predictions" = Ok (PyList preds) →
  Forall (well_formed_prediction labels prediction_length) preds →
  ∃ tables,
    decode_prediction bytes_decode json_loads column_values prediction encoding
    = Ok tables ∧
    length tables = length preds ∧
    ∀ (i : nat) p, preds !! i = Some p →
      ∃ df,
        tables !! i = Some df ∧
        decode_record column_values p = Ok df ∧
        NoDup (columns df) ∧
        (∀ q, q ∈ columns df ↔ q ∈ labels) ∧
        nrows df = (if labels is [] then 0 else prediction_length)%nat.
Proof.
  intros Hb Hl Hp Hwf.
  assert (∀ p, well_formed_prediction labels prediction_length p →
               ∃ cols, NoDup (map fst cols) ∧ (∀ q, q ∈ map fst cols ↔ q ∈ labels) ∧
                       decode_record column_values p
                       = Ok {| columns := map fst cols;
                               nrows := (if cols is [] then 0 else prediction_length)%nat;
                               cells := map (fun v => column_values v prediction_length)
                                            (map snd cols) |}) as Hrec.
  { intros p (cols & Hq & Hnd & Hlabels & Hcols). exists cols.
    split; [done|]. split; [done|].
    unfold decode_record. rewrite Hq. simpl. by apply DataFrame_of_lists. }
  destruct (decode_prediction_loop_tables prediction_data preds 0 (length preds) [] Hp)
    as (tables & Hloop & Htables); [done| |].
  { rewrite drop_0. eapply Forall_impl; [exact Hwf|].
    intros p Hwfp. destruct (Hrec p Hwfp) as (cols & _ & _ & Hdf). eauto. }
  rewrite drop_0 in Htables. simpl in Hloop.
  exists tables. split; [|split].
  - unfold decode_prediction. rewrite Hb. simpl. rewrite Hl. simpl. rewrite Hp. simpl.
    rewrite Nat2Z.id. exact Hloop.
  - symmetry. by eapply Forall2_length.
  - intros i p Hi.
    destruct (Forall2_lookup_l _ _ _ _ _ Htables Hi) as (df & Hdf & Hframe).
    rewrite Forall_lookup in Hwf.
    destruct (Hrec p (Hwf i p Hi)) as (cols & Hnd & Hlabels & Hdf').
    rewrite Hframe in Hdf'. injection Hdf' as ->.
    eexists. split; [exact Hdf|]. split; [exact Hframe|]. simpl.
    split; [done|]. split; [done|].
    destruct cols as [|[k v] cols], labels as [|l labels]; try done.
    + exfalso. eapply elem_of_nil, Hlabels. left.
    + exfalso. eapply (elem_of_nil k), Hlabels. left.
Qed.

End DecodePrediction.

(** A response for the quantiles 0.1 and 0.9 over two days, read from the
    text [json.dumps] writes for it. *)
Lemma decode_prediction_tables_witness :
  Forall (well_formed_prediction ["0.1"; "0.9"] 2)
         [PyDict [("quantiles",
                   PyDict [("0.1", PyList [PyFloat 1.0; PyFloat 1.5]);
                           ("0.9", PyList [PyFloat 2.0; PyFloat 2.5])])];
          PyDict [("quantiles",
                   PyDict [("0.9", PyList [PyFloat 4.0; PyFloat 4.5]);
                           ("0.1", PyList [PyFloat 3.0; PyFloat 3.5])])]] ∧
  ∃ tables,
    decode_prediction (decode_document repr_of_examples response_two_records)
                      (loads_document repr_of_examples response_two_records)
                      float_column
                      (encode_utf8 (json_dumps repr_of_examples response_two_records))
                      "utf-8"
    = Ok tables ∧
    length tables = 2%nat ∧
    map columns tables = [["0.1"; "0.9"]; ["0.9"; "0.1"]] ∧
    map nrows tables = [2; 2]%nat.
Proof.
  assert (Forall (well_formed_prediction ["0.1"; "0.9"] 2)
         [PyDict [("quantiles",
                   PyDict [("0.1", PyList [PyFloat 1.0; PyFloat 1.5]);
                           ("0.9", PyList [PyFloat 2.0; PyFloat 2.5])])];
          PyDict [("quantiles",
                   PyDict [("0.9", PyList [PyFloat 4.0; PyFloat 4.5]);
                           ("0.1", PyList [PyFloat 3.0; PyFloat 3.5])])]]) as Hwf.
  { repeat constructor.
    - eexists. split; [reflexivity|]. split; [|split].
      + simpl. apply NoDup_cons. split; [|apply NoDup_singleton].
        by intros ?%list_elem_of_singleton.
      + intros q. simpl. reflexivity.
      + repeat constructor; eexists; split; reflexivity.
    - eexists. split; [reflexivity|]. split; [|split].
      + simpl. apply NoDup_cons. split; [|apply NoDup_singleton].
        by intros ?%list_elem_of_singleton.
      + intros q. simpl. rewrite !elem_of_cons. tauto.
      + repeat constructor; eexists; split; reflexivity. }
  split; [exact Hwf|].
  destruct (decode_prediction_tables
              (decode_document repr_of_examples response_two_records)
              (loads_document repr_of_examples response_two_records)
              float_column
              (encode_utf8 (json_dumps repr_of_examples response_two_records))
              "utf-8"
              (json_dumps repr_of_examples response_two_records)
              response_two_records _ ["0.1"; "0.9"] 2
              eq_refl eq_refl eq_refl Hwf)
    as (tables & Hr & Hlen & _).
  exists tables. split; [exact Hr|]. split; [exact Hlen|].
  assert (Ok tables = Ok two_tables) as [= ->] by (rewrite <- Hr; reflexivity).
  split; reflexivity.
Defined.

(** Claim C9 fails as stated.  A response whose one record has no label
    under ["quantiles"] maps each label (there is none) to a list of thirty
    values; the table decoded for it has no row, not thirty. *)
Lemma decode_prediction_no_label_counterexample :
  Forall (well_formed_prediction [] 30) [PyDict [("quantiles", PyDict [])]] ∧
  decode_prediction (decode_document no_float_repr response_without_labels)
                    (loads_document no_float_repr response_without_labels)
                    float_column
                    (encode_utf8 (json_dumps no_float_repr response_without_labels))
                    "utf-8"
  = Ok [{| columns := []; nrows := 0; cells := [] |}].
Proof.
  split; [|reflexivity].
  repeat constructor. exists []. split; [reflexivity|].
  split; [constructor|]. split; [done|constructor].
Qed.

(** ** Further properties of the cells *)

Section MoreSlices.

Context {A : Type}.

(** Row [i] of a slice between bounds that are not negative. *)
Lemma lookup_slice (l : list A) lo hi (i : nat) :
  0 <= lo <= hi →
  slice l lo hi !! i
  = if decide (Z.of_nat i < hi - lo) then l !! (Z.to_nat lo + i)%nat else None.
Proof.
  intros H. rewrite slice_nonneg by lia. rewrite lookup_drop.
  destruct (decide (Z.of_nat i < hi - lo)).
  - apply lookup_take_lt. lia.
  - apply lookup_take_ge. lia.
Qed.

(** Rows put before a list move its slices. *)
Lemma slice_app_shift (prefix l : list A) lo hi :
  0 <= lo <= hi →
  slice (prefix ++ l) (lo + Z.of_nat (length prefix)) (hi + Z.of_nat (length prefix))
  = slice l lo hi.
Proof.
  intros H. rewrite !slice_nonneg by lia.
  replace (Z.to_nat (hi + Z.of_nat (length prefix)))
    with (length prefix + Z.to_nat hi)%nat by lia.
  replace (Z.to_nat (lo + Z.of_nat (length prefix)))
    with (length prefix + Z.to_nat lo)%nat by lia.
  rewrite take_app_add, drop_app_add. reflexivity.
Qed.

(** Rows put after the upper bound leave a slice alone. *)
Lemma slice_app_suffix (l suffix : list A) lo hi :
  0 <= lo <= hi → hi <= Z.of_nat (length l) →
  slice (l ++ suffix) lo hi = slice l lo hi.
Proof.
  intros H Hhi. rewrite !slice_nonneg by lia.
  rewrite take_app_le by lia. reflexivity.
Qed.

End MoreSlices.

Section MakeTimeSeriesMore.

Context {A : Type}.
Variable nan : A.
Implicit Types (df : Series A) (years : list string) (year : string).

Lemma year_end_idx_shift year start_idx k :
  year_end_idx year (start_idx + k) = year_end_idx year start_idx + k.
Proof. unfold year_end_idx. destruct (String.eqb year leap); lia. Qed.

Lemma year_end_idx_le_final year years start_idx :
  start_idx < year_end_idx year start_idx ∧
  year_end_idx year start_idx <= final_idx (year :: years) start_idx.
Proof.
  split.
  - pose proof (year_end_idx_width year start_idx).
    destruct (String.eqb year "2008"); lia.
  - apply (final_idx_ge years (year_end_idx year start_idx)).
Qed.

(** Property X1.  [make_time_series] reads the rows from [start_idx] to the
    last [end_idx] and no other: rows put before them (with [start_idx] moved
    as far) and rows put after them change nothing of what it returns or
    raises. *)
Theorem make_time_series_local (prefix df suffix : Series A) years start_idx :
  0 <= start_idx →
  final_idx years start_idx <= Z.of_nat (length df) →
  make_time_series nan (prefix ++ df ++ suffix) years
                   (start_idx + Z.of_nat (length prefix))
  = make_time_series nan df years start_idx.
Proof.
  revert start_idx. induction years as [|year years IH]; intros start_idx H0 Hlen.
  - reflexivity.
  - rewrite !make_time_series_cons.
    destruct (year_end_idx_le_final year years start_idx) as [Hlt Hle].
    rewrite year_end_idx_shift.
    rewrite (IH (year_end_idx year start_idx)) by (try exact Hlen; lia).
    unfold year_series. cbn [fst snd].
    rewrite slice_app_shift by lia.
    rewrite slice_app_suffix by lia.
    reflexivity.
Qed.

Lemma before_1678 y : y < 1678 → midnight y 1 1 < Timestamp_min_day.
Proof.
  intros Hy. assert (Hmin : Timestamp_min_day = -9223286400) by reflexivity.
  rewrite Hmin. unfold midnight, ymd2ord. rewrite days_before_month_1.
  unfold days_before_year, EPOCH_ORDINAL, SECONDS_PER_DAY.
  Z.div_mod_to_equations. lia.
Qed.

Lemma after_2261 y : 2261 < y → Timestamp_max_day < midnight y 12 31.
Proof.
  intros Hy. assert (Hmax : Timestamp_max_day = 9223286400) by reflexivity.
  rewrite Hmax. unfold midnight, ymd2ord. rewrite days_before_month_12.
  unfold days_before_year, EPOCH_ORDINAL, SECONDS_PER_DAY.
  destruct (is_leap y); Z.div_mod_to_equations; lia.
Qed.

(** No index is built for a year before 1678 or after 2261. *)
Lemma DatetimeIndex_out_of_range year y :
  year_number year = Some y → y < 1678 ∨ 2261 < y →
  DatetimeIndex (year +:+ "-01-01") (year +:+ "-12-31") = Raise OutOfBoundsDatetime.
Proof.
  intros Hn Hy. destruct (parse_year_dates year y Hn) as [Hs He].
  unfold DatetimeIndex, to_datetime. rewrite Hs, He. cbn [mbind result_bind].
  change (days_in_month y 1) with 31. change (days_in_month y 12) with 31.
  replace ((1 <=? 1) && (1 <=? 12) && (1 <=? 1) && (1 <=? 31)) with true by reflexivity.
  replace ((1 <=? 12) && (12 <=? 12) && (1 <=? 31) && (31 <=? 31)) with true by reflexivity.
  destruct Hy as [Hy|Hy].
  - pose proof (before_1678 y Hy).
    replace (Timestamp_min_day <=? midnight y 1 1) with false by (symmetry; apply Z.leb_gt; lia).
    reflexivity.
  - pose proof (after_2261 y Hy).
    replace (midnight y 12 31 <=? Timestamp_max_day) with false
      by (symmetry; apply Z.leb_gt; lia).
    rewrite andb_false_r.
    destruct ((Timestamp_min_day <=? midnight y 1 1) && (midnight y 1 1 <=? Timestamp_max_day));
      reflexivity.
Qed.

(** Property X2.  A requested year before 1678 or after 2261 (a year one of
    whose days no [Timestamp] holds) makes [make_time_series] raise: it
    returns no list, not even the series of the years before. *)
Theorem make_time_series_out_of_range df years start_idx year y :
  year ∈ years → year_number year = Some y → y < 1678 ∨ 2261 < y →
  returns (make_time_series nan df years start_idx) = false.
Proof.
  intros Hin Hn Hy.
  destruct (make_time_series nan df years start_idx) as [time_series|e] eqn:Hr; [|done].
  apply list_elem_of_lookup in Hin as [i Hi].
  destruct (make_time_series_lookup nan df years start_idx time_series i year Hr Hi)
    as (w & series & _ & _ & Hb).
  unfold year_series in Hb.
  rewrite (DatetimeIndex_out_of_range year y Hn Hy) in Hb. discriminate Hb.
Qed.

End MakeTimeSeriesMore.

Lemma make_time_series_local_witness :
  0 <= default_start_idx ∧
  final_idx full_years default_start_idx <= Z.of_nat (length frame_from_2006) ∧
  make_time_series None (frame_2012 ++ frame_from_2006 ++ frame_2012) full_years
                   (default_start_idx + Z.of_nat (length frame_2012))
  = make_time_series None frame_from_2006 full_years default_start_idx.
Proof.
  assert (0 <= default_start_idx) as H0 by (unfold default_start_idx; lia).
  assert (final_idx full_years default_start_idx <= Z.of_nat (length frame_from_2006))
    as Hlen by (vm_compute; discriminate).
  split; [exact H0|]. split; [exact Hlen|].
  exact (make_time_series_local None frame_2012 frame_from_2006 frame_2012 full_years
           default_start_idx H0 Hlen).
Defined.

Lemma make_time_series_out_of_range_witness :
  "3000" ∈ ["2007"; "3000"] ∧ year_number "3000" = Some 3000 ∧ (3000 < 1678 ∨ 2261 < 3000) ∧
  returns (make_time_series None frame_from_2006 ["2007"; "3000"] default_start_idx) = false.
Proof.
  assert ("3000" ∈ ["2007"; "3000"]) as Hin by (right; left).
  assert (3000 < 1678 ∨ 2261 < 3000) as Hy by (right; lia).
  split; [exact Hin|]. split; [reflexivity|]. split; [exact Hy|].
  exact (make_time_series_out_of_range None frame_from_2006 ["2007"; "3000"]
           default_start_idx "3000" 3000 Hin eq_refl Hy).
Defined.

Section Alignment.

Context {A : Type}.
Variable nan : A.

Lemma days_before_year_succ y :
  days_before_year (y + 1) = days_before_year y + 365 + (if is_leap y then 1 else 0).
Proof.
  unfold days_before_year, is_leap. replace (y + 1 - 1) with y by lia.
  destruct (Z.eqb_spec (y mod 4) 0), (Z.eqb_spec (y mod 100) 0),
    (Z.eqb_spec (y mod 400) 0); simpl; Z.div_mod_to_equations; lia.
Qed.

(** January 1 comes 365 days after the January 1 before, 366 after that of
    a leap year. *)
Lemma midnight_next_year y :
  midnight (y + 1) 1 1
  = midnight y 1 1 + (if is_leap y then 366 else 365) * SECONDS_PER_DAY.
Proof.
  unfold midnight, ymd2ord. rewrite !days_before_month_1, days_before_year_succ.
  destruct (is_leap y); lia.
Qed.

Lemma year_days_range y :
  year_days y
  = map (fun k => midnight y 1 1 + Z.of_nat k * SECONDS_PER_DAY)
        (seq 0 (if is_leap y then 366 else 365)).
Proof.
  unfold year_days, daily_range. rewrite year_span.
  rewrite Z.div_mul by (unfold SECONDS_PER_DAY; lia).
  by destruct (is_leap y).
Qed.

Lemma daily_frame_lookup t0 (vals : list A) (i : nat) :
  daily_frame t0 vals !! i
  = (fun v => (t0 + Z.of_nat i * SECONDS_PER_DAY, v)) <$> vals !! i.
Proof.
  exact (list_lookup_imap (fun (k : nat) (v : A) => (t0 + Z.of_nat k * SECONDS_PER_DAY, v))
           vals i).
Qed.

Lemma daily_frame_length t0 (vals : list A) : length (daily_frame t0 vals) = length vals.
Proof. unfold daily_frame. apply length_imap. Qed.

Lemma daily_frame_index t0 (vals : list A) :
  index (daily_frame t0 vals)
  = map (fun k => t0 + Z.of_nat k * SECONDS_PER_DAY) (seq 0 (length vals)).
Proof.
  apply list_eq. intros i. unfold index.
  rewrite !list_lookup_fmap, daily_frame_lookup.
  destruct (vals !! i) as [v|] eqn:Hv; simpl.
  - rewrite lookup_seq_lt by (by eapply lookup_lt_Some). reflexivity.
  - rewrite lookup_seq_ge by (by apply lookup_ge_None). reflexivity.
Qed.

Lemma daily_frame_unique t0 (vals : list A) : unique (index (daily_frame t0 vals)) = true.
Proof.
  apply unique_NoDup. rewrite daily_frame_index.
  apply NoDup_fmap_2_strong; [|apply NoDup_seq].
  intros j k _ _. unfold SECONDS_PER_DAY. lia.
Qed.

(** The labels of the rows [lo, hi) of a daily frame. *)
Lemma daily_frame_slice_index t0 (vals : list A) lo hi :
  0 <= lo <= hi → hi <= Z.of_nat (length vals) →
  index (slice (daily_frame t0 vals) lo hi)
  = map (fun k => t0 + lo * SECONDS_PER_DAY + Z.of_nat k * SECONDS_PER_DAY)
        (seq 0 (Z.to_nat (hi - lo))).
Proof.
  intros H Hhi. apply list_eq. intros i. unfold index.
  rewrite !list_lookup_fmap, lookup_slice by lia.
  destruct (decide (Z.of_nat i < hi - lo)) as [Hi|Hi].
  - rewrite lookup_seq_lt by lia. rewrite daily_frame_lookup.
    destruct (lookup_lt_is_Some_2 vals (Z.to_nat lo + i)) as [v ->]; [lia|].
    simpl. f_equal. unfold SECONDS_PER_DAY. lia.
  - rewrite lookup_seq_ge by lia. reflexivity.
Qed.

Lemma at_label_head (data : Series A) t v : at_label nan ((t, v) :: data) t = v.
Proof. simpl. by rewrite Z.eqb_refl. Qed.

(** A series reindexed on its own labels is itself. *)
Lemma Series_of_own_index (data : Series A) :
  unique (index data) = true → Series_of nan data (index data) = Ok data.
Proof.
  intros Hu. unfold Series_of. rewrite Hu. f_equal.
  apply unique_NoDup in Hu. unfold index in *. rewrite map_map.
  induction data as [|[t v] data IH]; [done|].
  apply NoDup_cons in Hu as [Hnin Hnd]. cbn [map fst].
  rewrite at_label_head. f_equal.
  rewrite <- (IH Hnd) at 2. apply map_ext_in.
  intros [t' v'] Hin. simpl.
  destruct (Z.eqb_spec t t') as [->|Hne]; [|done].
  exfalso. apply Hnin. apply list_elem_of_In in Hin.
  by apply (list_elem_of_fmap_2 fst) in Hin.
Qed.

(** Property X3.  On a frame of consecutive days whose row [start_idx] is
    January 1 of the first requested year, for consecutive years among which
    only ['2008'] is a leap year, and with rows enough for all of them,
    [make_time_series] returns for each year exactly the rows of that year,
    their labels and values as the frame has them (no [NaN] comes in), and
    the series put end to end are the frame's rows from [start_idx] on. *)
Theorem make_time_series_aligned t0 (vals : list A) years start_idx y0 :
  0 <= start_idx →
  t0 + start_idx * SECONDS_PER_DAY = midnight y0 1 1 →
  consecutive_years y0 years →
  Forall (fun year => valid_year year = true) years →
  Forall leap_only_2008 years →
  final_idx years start_idx <= Z.of_nat (length vals) →
  ∃ time_series,
    make_time_series nan (daily_frame t0 vals) years start_idx = Ok time_series ∧
    time_series
    = map (fun w => slice (daily_frame t0 vals) w.1 w.2) (year_windows years start_idx) ∧
    concat time_series
    = slice (daily_frame t0 vals) start_idx (final_idx years start_idx).
Proof.
  intros H0 Ht0 Hcons Hvalid Hleap Hlen.
  assert (make_time_series nan (daily_frame t0 vals) years start_idx
          = Ok (map (fun w => slice (daily_frame t0 vals) w.1 w.2)
                    (year_windows years start_idx))) as Hr.
  { revert start_idx y0 H0 Ht0 Hcons Hlen.
    induction years as [|year years IH]; intros start_idx y0 H0 Ht0 Hcons Hlen;
      [reflexivity|].
    destruct Hcons as [Hn Hcons].
    apply Forall_cons in Hvalid as [Hv Hvalid].
    apply Forall_cons in Hleap as [Hl Hleap].
    destruct (valid_year_number year Hv) as (y & Hn' & Hb).
    rewrite Hn in Hn'. injection Hn' as <-.
    destruct (year_end_idx_le_final year years start_idx) as [Hlt Hle].
    assert (year_end_idx year start_idx - start_idx = if is_leap y0 then 366 else 365)
      as Hwidth.
    { rewrite year_end_idx_width. specialize (Hl y0 Hn).
      destruct (String.eqb_spec year "2008") as [E|E], (is_leap y0) eqn:El; try done.
      - by apply Hl in E.
      - by destruct (proj1 Hl eq_refl). }
    rewrite make_time_series_cons. unfold year_series. cbn [fst snd].
    rewrite (DatetimeIndex_year year y0 Hn Hb). cbn [mbind result_bind].
    assert (year_days y0
            = index (slice (daily_frame t0 vals) start_idx (year_end_idx year start_idx)))
      as ->.
    { rewrite daily_frame_slice_index by lia. rewrite year_days_range, Hwidth, Ht0.
      by destruct (is_leap y0). }
    rewrite Series_of_own_index by apply unique_slice, daily_frame_unique.
    cbn [mbind result_bind].
    rewrite (IH Hvalid Hleap (year_end_idx year start_idx) (y0 + 1)); try done; try lia.
    rewrite midnight_next_year, <- Ht0. destruct (is_leap y0); lia. }
  eexists. split; [exact Hr|]. split; [reflexivity|].
  apply year_windows_cover. exact H0.
Qed.

End Alignment.

(** The notebook's frame and years: row 16 of a frame that starts on
    2006-12-16 is January 1, 2007. *)
Lemma make_time_series_aligned_witness :
  0 <= default_start_idx ∧
  midnight 2006 12 16 + default_start_idx * SECONDS_PER_DAY = midnight 2007 1 1 ∧
  consecutive_years 2007 full_years ∧
  Forall (fun year => valid_year year = true) full_years ∧
  Forall leap_only_2008 full_years ∧
  final_idx full_years default_start_idx <= Z.of_nat (length (counting 1200)) ∧
  ∃ time_series,
    make_time_series None frame_from_2006 full_years default_start_idx = Ok time_series ∧
    time_series
    = map (fun w => slice frame_from_2006 w.1 w.2)
          (year_windows full_years default_start_idx) ∧
    concat time_series = slice frame_from_2006 16 1112.
Proof.
  assert (0 <= default_start_idx) as H0 by (unfold default_start_idx; lia).
  assert (midnight 2006 12 16 + default_start_idx * SECONDS_PER_DAY = midnight 2007 1 1)
    as Ht0 by reflexivity.
  assert (consecutive_years 2007 full_years) as Hc by (repeat split).
  assert (Forall (fun year => valid_year year = true) full_years) as Hv
    by (repeat constructor).
  assert (Forall leap_only_2008 full_years) as Hl.
  { assert (∀ year y0, year_number year = Some y0 →
                        (is_leap y0 = true ↔ year = "2008") → leap_only_2008 year) as Hone.
    { intros year y0 Hn Hiff y Hy. rewrite Hn in Hy. by injection Hy as <-. }
    unfold full_years. constructor; [|constructor; [|constructor; [|constructor]]].
    - apply (Hone "2007" 2007 eq_refl). split; intros H; discriminate H.
    - apply (Hone "2008" 2008 eq_refl). split; reflexivity.
    - apply (Hone "2009" 2009 eq_refl). split; intros H; discriminate H. }
  assert (final_idx full_years default_start_idx <= Z.of_nat (length (counting 1200)))
    as Hlen by (vm_compute; discriminate).
  do 6 (split; [assumption|]).
  exact (make_time_series_aligned None (midnight 2006 12 16) (counting 1200) full_years
           default_start_idx 2007 H0 Ht0 Hc Hv Hl Hlen).
Defined.

(** ** From the minute rows to the yearly series *)

Section Pipeline.

Variable float_mean : list float → float.
Implicit Types (power_df : Series float).

Lemma resample_D_mean_unique power_df : unique (index (mean_power_df float_mean power_df)) = true.
Proof. apply unique_NoDup, resample_D_mean_NoDup. Qed.

(** The resampled column, from its earliest day on. *)
Lemma mean_power_df_from_first power_df d0 d1 :
  first_day power_df d0 → last_day power_df d1 →
  mean_power_df float_mean power_df
  = map (fun day => (day_start day, bin_mean float_mean (on_day power_df day)))
        (seqZ d0 (d1 - d0 + 1)).
Proof.
  intros [(r0 & Hr0 & E0) Hlow] [(r1 & Hr1 & E1) Hhigh].
  unfold mean_power_df, resample_D_mean.
  destruct (map day_of (index power_df)) as [|d ds] eqn:Hdays.
  - destruct power_df; [by apply elem_of_nil in Hr0|discriminate].
  - assert (∀ x, x ∈ d :: ds ↔ ∃ r, r ∈ power_df ∧ day_of r.1 = x) as Hin.
    { intros x. rewrite <- Hdays. unfold index.
      rewrite <- !list_fmap_compose, list_elem_of_fmap. split.
      - intros (r & -> & Hr). eauto.
      - intros (r & Hr & <-). eauto. }
    assert (foldr Z.min d ds = d0) as ->.
    { destruct (proj1 (Hin _) (foldr_min_in d ds)) as (r & Hr & E).
      assert (foldr Z.min d ds <= d0) by (apply foldr_min_le, Hin; eauto).
      specialize (Hlow r Hr). lia. }
    assert (foldr Z.max d ds = d1) as ->.
    { destruct (proj1 (Hin _) (foldr_max_in d ds)) as (r & Hr & E).
      assert (d1 <= foldr Z.max d ds) by (apply foldr_max_ge, Hin; eauto).
      specialize (Hhigh r Hr). lia. }
    reflexivity.
Qed.

(** Property X4.  The resampled column has no gap and no repeat: its rows
    are in ascending order, each labelled with the midnight of the day after
    the row before. *)
Theorem mean_power_df_consecutive power_df (i : nat) t t' :
  index (mean_power_df float_mean power_df) !! i = Some t →
  index (mean_power_df float_mean power_df) !! S i = Some t' →
  t' = t + SECONDS_PER_DAY ∧ t = day_start (day_of t).
Proof.
  unfold mean_power_df, resample_D_mean, index.
  destruct (map day_of (map fst power_df)) as [|d ds]; [done|].
  rewrite map_map. cbn [fst]. rewrite !list_lookup_fmap.
  destruct (seqZ _ _ !! i) as [a|] eqn:Ha; [|done].
  destruct (seqZ _ _ !! S i) as [b|] eqn:Hb; [|done].
  apply lookup_seqZ in Ha as [-> _]. apply lookup_seqZ in Hb as [-> _].
  simpl. intros [= <-] [= <-]. rewrite day_of_day_start.
  split; [|done]. unfold day_start, SECONDS_PER_DAY. lia.
Qed.

(** Property X5.  On the column the notebook resamples, whatever its rows,
    [make_time_series] returns one series per requested year for all the
    years it can date: the resampled labels never repeat, so only a year
    outside 1678 to 2261 can make the call raise. *)
Theorem make_time_series_on_resampled power_df years start_idx :
  Forall (fun year => valid_year year = true) years →
  ∃ time_series,
    make_time_series nan (mean_power_df float_mean power_df) years start_idx
    = Ok time_series ∧
    length time_series = length years.
Proof.
  intros Hv.
  destruct (make_time_series_returns nan (mean_power_df float_mean power_df) years start_idx
              (resample_D_mean_unique power_df) Hv) as [time_series Hr].
  exists time_series. split; [exact Hr|].
  apply make_time_series_loop_trace in Hr. apply Forall2_length in Hr.
  rewrite length_zip_with, year_windows_length in Hr. lia.
Qed.

(** The rows [lo, hi) of the resampled column are the daily means of the
    days they are labelled with. *)
Lemma mean_power_df_slice power_df d0 d1 lo hi :
  first_day power_df d0 → last_day power_df d1 →
  0 <= lo <= hi → hi <= d1 - d0 + 1 →
  slice (mean_power_df float_mean power_df) lo hi
  = daily_means float_mean power_df
      (map (fun k => day_start (d0 + lo) + Z.of_nat k * SECONDS_PER_DAY)
           (seq 0 (Z.to_nat (hi - lo)))).
Proof.
  intros Hf Hl H Hhi. rewrite (mean_power_df_from_first power_df d0 d1 Hf Hl).
  apply list_eq. intros i. rewrite lookup_slice by lia.
  unfold daily_means. rewrite !list_lookup_fmap.
  destruct (decide (Z.of_nat i < hi - lo)) as [Hi|Hi].
  - rewrite lookup_seqZ_lt by lia. rewrite lookup_seq_lt by lia. simpl.
    assert (day_start (d0 + lo) + Z.of_nat i * SECONDS_PER_DAY
            = day_start (d0 + Z.of_nat (Z.to_nat lo + i))) as ->.
    { unfold day_start, SECONDS_PER_DAY. lia. }
    by rewrite day_of_day_start.
  - rewrite lookup_seq_ge by lia. reflexivity.
Qed.

(** Property X6.  The notebook's call, on a column whose earliest row is of
    2006-12-16 and whose latest is of 2009-12-31 or later: the three series
    returned hold, for each day of 2007, of 2008 and of 2009, what [mean]
    computes from the values observed that day, taken in the order of their
    stamps ([NaN] for a day without observation). *)
Theorem cell_19_daily_means power_df d1 :
  first_day power_df (day_of (midnight 2006 12 16)) →
  last_day power_df d1 →
  day_of (midnight 2009 12 31) <= d1 →
  cell_19 nan (mean_power_df float_mean power_df)
  = Ok [daily_means float_mean power_df (year_days 2007);
        daily_means float_mean power_df (year_days 2008);
        daily_means float_mean power_df (year_days 2009)].
Proof.
  intros Hf Hl Hd1.
  assert (day_of (midnight 2006 12 16) = 13498) as Hd0 by reflexivity.
  assert (day_of (midnight 2009 12 31) = 14609) as Hd9 by reflexivity.
  rewrite Hd0 in Hf. rewrite Hd9 in Hd1.
  unfold cell_19, full_years. pose proof (resample_D_mean_unique power_df) as Hu.
  unfold default_start_idx.
  assert (∀ year y lo hi,
            year_number year = Some y → 1678 <= y <= 2261 →
            0 <= lo <= hi → hi <= 1112 →
            year_days y = map (fun k => day_start (13498 + lo) + Z.of_nat k * SECONDS_PER_DAY)
                              (seq 0 (Z.to_nat (hi - lo))) →
            year_series nan (mean_power_df float_mean power_df) year (lo, hi)
            = Ok (daily_means float_mean power_df (year_days y))) as Hyear.
  { intros year y lo hi Hn Hy Hlo Hhi Hdays. unfold year_series. cbn [fst snd].
    rewrite (DatetimeIndex_year year y Hn Hy). cbn [mbind result_bind].
    rewrite (mean_power_df_slice power_df 13498 d1 lo hi Hf Hl) by lia.
    rewrite <- Hdays.
    assert (index (daily_means float_mean power_df (year_days y)) = year_days y) as Hidx.
    { unfold index, daily_means. rewrite map_map. apply map_id. }
    rewrite <- Hidx at 2. apply Series_of_own_index.
    rewrite Hidx. apply unique_NoDup, daily_range_NoDup. }
  rewrite make_time_series_cons. change (year_end_idx "2007" 16) with 381.
  rewrite (Hyear "2007" 2007 16 381) by (reflexivity || lia).
  cbn [mbind result_bind].
  rewrite make_time_series_cons. change (year_end_idx "2008" 381) with 747.
  rewrite (Hyear "2008" 2008 381 747) by (reflexivity || lia).
  cbn [mbind result_bind].
  rewrite make_time_series_cons. change (year_end_idx "2009" 747) with 1112.
  rewrite (Hyear "2009" 2009 747 1112) by (reflexivity || lia).
  reflexivity.
Qed.

End Pipeline.

Lemma make_time_series_on_resampled_witness :
  Forall (fun year => valid_year year = true) full_years ∧
  ∃ time_series,
    make_time_series nan (mean_power_df sum_over_count two_days_apart) full_years default_start_idx
    = Ok time_series ∧
    length time_series = 3%nat.
Proof.
  assert (Forall (fun year => valid_year year = true) full_years) as Hv
    by (repeat constructor).
  split; [exact Hv|].
  exact (make_time_series_on_resampled sum_over_count two_days_apart full_years
           default_start_idx Hv).
Defined.

Lemma cell_19_daily_means_witness :
  first_day column_2006_2010 (day_of (midnight 2006 12 16)) ∧
  last_day column_2006_2010 (day_of (midnight 2010 1 2)) ∧
  day_of (midnight 2009 12 31) <= day_of (midnight 2010 1 2) ∧
  cell_19 nan (mean_power_df sum_over_count column_2006_2010)
  = Ok [daily_means sum_over_count column_2006_2010 (year_days 2007);
        daily_means sum_over_count column_2006_2010 (year_days 2008);
        daily_means sum_over_count column_2006_2010 (year_days 2009)].
Proof.
  assert (forallb (fun r : Timestamp * float =>
                     (day_of (midnight 2006 12 16) <=? day_of r.1)
                     && (day_of r.1 <=? day_of (midnight 2010 1 2)))
                  column_2006_2010 = true) as Hall by (vm_compute; reflexivity).
  assert (∀ r, r ∈ column_2006_2010 →
               day_of (midnight 2006 12 16) <= day_of r.1 <= day_of (midnight 2010 1 2))
    as Hbounds.
  { intros r Hr%list_elem_of_In. rewrite forallb_forall in Hall.
    specialize (Hall r Hr). apply andb_true_iff in Hall as [H1 H2].
    apply Z.leb_le in H1, H2. lia. }
  assert (first_day column_2006_2010 (day_of (midnight 2006 12 16))) as Hf.
  { split.
    - exists (midnight 2006 12 16 + 60, 1.5%float). split; [left|reflexivity].
    - intros r Hr. apply (Hbounds r Hr). }
  assert (last_day column_2006_2010 (day_of (midnight 2010 1 2))) as Hl.
  { split.
    - exists (midnight 2010 1 2 + 60, 1.5%float). split; [|reflexivity].
      apply list_elem_of_lookup. exists 1113%nat. vm_compute. reflexivity.
    - intros r Hr. apply (Hbounds r Hr). }
  assert (day_of (midnight 2009 12 31) <= day_of (midnight 2010 1 2)) as Hd
    by (vm_compute; discriminate).
  split; [exact Hf|]. split; [exact Hl|]. split; [exact Hd|].
  exact (cell_19_daily_means sum_over_count column_2006_2010 (day_of (midnight 2010 1 2)) Hf Hl Hd).
Defined.

(** ** More on [decode_prediction] *)

Section DecodeMore.

Variable bytes_decode : list byte → string → result string.
Variable json_loads : string → result pyval.
Variable column_values : pyval → nat → list pyval.

Lemma decode_records_Ok preds tables :
  decode_records column_values preds = Ok tables ↔
  Forall2 (fun p df => decode_record column_values p = Ok df) preds tables.
Proof.
  revert tables. induction preds as [|p preds IH]; intros tables; simpl.
  - split; [intros [= <-]; constructor|intros H; by inversion H].
  - split.
    + destruct (decode_record column_values p) as [df|e] eqn:Ep; simpl; [|done].
      destruct (decode_records column_values preds) as [dfs|e] eqn:Er; simpl; [|done].
      intros [= <-]. constructor; [done|]. by apply IH.
    + intros H. inversion H as [|p' df l dfs Hp Hrest]; subst.
      rewrite Hp. simpl. apply IH in Hrest. rewrite Hrest. reflexivity.
Qed.

(** The first record that raises ends the decoding with its exception. *)
Lemma decode_records_first_raise good p rest e :
  Forall (fun q => returns (decode_record column_values q) = true) good →
  decode_record column_values p = Raise e →
  decode_records column_values (good ++ p :: rest) = Raise e.
Proof.
  intros Hgood Hp. induction Hgood as [|q good Hq _ IH]; simpl.
  - by rewrite Hp.
  - destruct (decode_record column_values q); [|discriminate Hq]. simpl. by rewrite IH.
Qed.

(** The loop decodes the records from index [k] on, one after the other. *)
Lemma decode_prediction_loop_records prediction_data preds (k n : nat) acc :
  getitem_str prediction_data "predictions" = Ok (PyList preds) →
  (k + n)%nat = length preds →
  decode_prediction_loop column_values prediction_data k n acc
  = (dfs ← decode_records column_values (drop k preds); Ok (acc ++ dfs)).
Proof.
  intros Hp. revert k acc. induction n as [|n IH]; intros k acc Hk.
  - rewrite drop_ge by lia. simpl. by rewrite app_nil_r.
  - destruct (lookup_lt_is_Some_2 preds k) as [p Hpk]; [lia|].
    rewrite (drop_S _ _ _ Hpk). simpl. rewrite Hp. simpl. rewrite Hpk. simpl.
    unfold decode_record.
    destruct (getitem_str p "quantiles") as [q|e]; simpl; [|done].
    destruct (DataFrame_of column_values q) as [df|e]; simpl; [|done].
    rewrite IH by lia.
    destruct (decode_records column_values (drop (S k) preds)); simpl; [|done].
    by rewrite <- app_assoc.
Qed.

Lemma decode_prediction_records prediction encoding text prediction_data preds :
  bytes_decode prediction encoding = Ok text →
  json_loads text = Ok prediction_data →
  getitem_str prediction_data "predictions" = Ok (PyList preds) →
  decode_prediction bytes_decode json_loads column_values prediction encoding
  = decode_records column_values preds.
Proof.
  intros Hb Hl Hp. unfold decode_prediction.
  rewrite Hb. simpl. rewrite Hl. simpl. rewrite Hp. simpl. rewrite Nat2Z.id.
  rewrite (decode_prediction_loop_records prediction_data preds 0 (length preds) [] Hp)
    by done.
  rewrite drop_0. by destruct (decode_records column_values preds).
Qed.

(** Property X7.  For a response whose ["predictions"] is a list,
    [decode_prediction] returns a list of tables exactly when every record
    has a ["quantiles"] entry that makes a table, and then the tables are
    those, one per record and in the order of the records; nothing else of
    the response bears on the result. *)
Theorem decode_prediction_returns_iff prediction encoding text prediction_data preds tables :
  bytes_decode prediction encoding = Ok text →
  json_loads text = Ok prediction_data →
  getitem_str prediction_data "predictions" = Ok (PyList preds) →
  decode_prediction bytes_decode json_loads column_values prediction encoding = Ok tables ↔
  Forall2 (fun p df => ∃ quantiles, getitem_str p "quantiles" = Ok quantiles ∧
                                    DataFrame_of column_values quantiles = Ok df) preds tables.
Proof.
  intros Hb Hl Hp.
  rewrite (decode_prediction_records prediction encoding text prediction_data preds Hb Hl Hp).
  rewrite decode_records_Ok.
  assert (∀ p df, decode_record column_values p = Ok df ↔
                  ∃ quantiles, getitem_str p "quantiles" = Ok quantiles ∧
                               DataFrame_of column_values quantiles = Ok df) as Hrec.
  { intros p df. unfold decode_record.
    destruct (getitem_str p "quantiles") as [q|e]; simpl.
    - split; [eauto|]. by intros (q' & [= <-] & H).
    - split; [done|]. by intros (q' & H & _). }
  split; intros H; (eapply Forall2_impl; [exact H|]); intros p df; apply Hrec.
Qed.

(** Property X8.  [decode_prediction] returns no partial list: when the
    records before one decode, and that one has no ["quantiles"] entry, or
    one whose lists differ in length, or is no record at all, the call raises
    what that record raises ([KeyError], [ValueError], [TypeError]). *)
Theorem decode_prediction_first_raise prediction encoding text prediction_data
    good p rest e :
  bytes_decode prediction encoding = Ok text →
  json_loads text = Ok prediction_data →
  getitem_str prediction_data "predictions" = Ok (PyList (good ++ p :: rest)) →
  Forall (fun q => returns (decode_record column_values q) = true) good →
  decode_record column_values p = Raise e →
  decode_prediction bytes_decode json_loads column_values prediction encoding = Raise e.
Proof.
  intros Hb Hl Hp Hgood He.
  rewrite (decode_prediction_records prediction encoding text prediction_data _ Hb Hl Hp).
  by apply decode_records_first_raise.
Qed.

Lemma dict_get_missing kvs k : k ∉ map fst kvs → dict_get kvs k = Raise KeyError.
Proof.
  induction kvs as [|[k' v] kvs IH]; simpl; [done|].
  rewrite not_elem_of_cons. intros [Hne Hnin].
  destruct (String.eqb_spec k' k); [congruence|]. by apply IH.
Qed.

(** Property X9.  A response that parses to an object without the key
    ["predictions"] makes [decode_prediction] raise [KeyError]; one that
    parses to anything but an object makes it raise [TypeError]; and one
    whose ["predictions"] is the empty list gives the empty list. *)
Theorem decode_prediction_envelope prediction encoding text prediction_data :
  bytes_decode prediction encoding = Ok text →
  json_loads text = Ok prediction_data →
  (∀ kvs, prediction_data = PyDict kvs → "predictions" ∉ map fst kvs →
     decode_prediction bytes_decode json_loads column_values prediction encoding
     = Raise KeyError) ∧
  ((∀ kvs, prediction_data ≠ PyDict kvs) →
     decode_prediction bytes_decode json_loads column_values prediction encoding
     = Raise TypeError) ∧
  (getitem_str prediction_data "predictions" = Ok (PyList []) →
     decode_prediction bytes_decode json_loads column_values prediction encoding = Ok []).
Proof.
  intros Hb Hl. unfold decode_prediction. rewrite Hb. simpl. rewrite Hl. simpl.
  split; [|split].
  - intros kvs -> Hnin. simpl. by rewrite (dict_get_missing kvs "predictions" Hnin).
  - intros Hnd. destruct prediction_data; try reflexivity. by destruct (Hnd kvs).
  - intros ->. reflexivity.
Qed.

End DecodeMore.

Lemma decode_prediction_returns_iff_witness :
  decode_document repr_of_examples response_two_records
    (encode_utf8 (json_dumps repr_of_examples response_two_records)) "utf-8"
  = Ok (json_dumps repr_of_examples response_two_records) ∧
  loads_document repr_of_examples response_two_records
    (json_dumps repr_of_examples response_two_records)
  = Ok response_two_records ∧
  getitem_str response_two_records "predictions" = Ok (PyList two_records) ∧
  decode_prediction (decode_document repr_of_examples response_two_records)
                    (loads_document repr_of_examples response_two_records)
                    float_column
                    (encode_utf8 (json_dumps repr_of_examples response_two_records))
                    "utf-8"
  = Ok two_tables ∧
  (decode_prediction (decode_document repr_of_examples response_two_records)
                     (loads_document repr_of_examples response_two_records)
                     float_column
                     (encode_utf8 (json_dumps repr_of_examples response_two_records))
                     "utf-8"
   = Ok two_tables ↔
   Forall2 (fun p df => ∃ quantiles, getitem_str p "quantiles" = Ok quantiles ∧
                                     DataFrame_of float_column quantiles = Ok df)
           two_records two_tables).
Proof.
  split; [reflexivity|]. split; [reflexivity|]. split; [reflexivity|].
  split; [reflexivity|].
  exact (decode_prediction_returns_iff
           (decode_document repr_of_examples response_two_records)
           (loads_document repr_of_examples response_two_records)
           float_column
           (encode_utf8 (json_dumps repr_of_examples response_two_records)) "utf-8"
           (json_dumps repr_of_examples response_two_records)
           response_two_records two_records two_tables
           eq_refl eq_refl eq_refl).
Defined.

Lemma decode_prediction_first_raise_witness :
  getitem_str response_missing_quantiles "predictions"
  = Ok (PyList ([record_of_median] ++ PyDict [("mean", PyList [PyInt 1])] :: [])) ∧
  Forall (fun q => returns (decode_record float_column q) = true) [record_of_median] ∧
  decode_record float_column (PyDict [("mean", PyList [PyInt 1])]) = Raise KeyError ∧
  decode_prediction (decode_document no_float_repr response_missing_quantiles)
                    (loads_document no_float_repr response_missing_quantiles)
                    float_column
                    (encode_utf8 (json_dumps no_float_repr response_missing_quantiles))
                    "utf-8"
  = Raise KeyError.
Proof.
  assert (Forall (fun q => returns (decode_record float_column q) = true) [record_of_median])
    as Hgood
    by (repeat constructor).
  split; [reflexivity|]. split; [exact Hgood|]. split; [reflexivity|].
  exact (decode_prediction_first_raise
           (decode_document no_float_repr response_missing_quantiles)
           (loads_document no_float_repr response_missing_quantiles)
           float_column
           (encode_utf8 (json_dumps no_float_repr response_missing_quantiles)) "utf-8"
           (json_dumps no_float_repr response_missing_quantiles)
           response_missing_quantiles
           [record_of_median] (PyDict [("mean", PyList [PyInt 1])]) [] KeyError
           eq_refl eq_refl eq_refl Hgood eq_refl).
Defined.

Lemma decode_prediction_envelope_witness :
  ("predictions" ∉ map fst [("message", PyStr "no model")]) ∧
  decode_prediction (decode_document no_float_repr response_without_predictions)
                    (loads_document no_float_repr response_without_predictions)
                    float_column
                    (encode_utf8 (json_dumps no_float_repr response_without_predictions))
                    "utf-8"
  = Raise KeyError.
Proof.
  assert ("predictions" ∉ map fst [("message", PyStr "no model")]) as Hnin.
  { simpl. by intros ?%list_elem_of_singleton. }
  split; [exact Hnin|].
  exact (proj1 (decode_prediction_envelope
                  (decode_document no_float_repr response_without_predictions)
                  (loads_document no_float_repr response_without_predictions)
                  float_column
                  (encode_utf8 (json_dumps no_float_repr response_without_predictions))
                  "utf-8"
                  (json_dumps no_float_repr response_without_predictions)
                  response_without_predictions eq_refl eq_refl)
               [("message", PyStr "no model")] eq_refl Hnin).
Defined.

(** ** More on [write_json_dataset] *)

Section WriteMore.

Context {A : Type}.
Variable float_repr : float → string.
Implicit Types (time_series : list (Series A)) (w : world).

(** Property X10.  Where the file system lets the file be opened,
    [write_json_dataset] returns and replaces the file: the file holds the
    lines of the list, whatever it held before and whether or not it
    existed, so writing the same list again leaves the files as they are;
    every other file is left as it was, and the call prints one line, the
    file's name followed by [saved.].  Where the file cannot be opened the
    call raises an [OSError], and neither writes nor prints. *)
Theorem write_json_dataset_replaces time_series filename w :
  (openable w filename = true →
   ∃ w1,
     write_json_dataset float_repr (Some time_series) filename w = (w1, Ok ()) ∧
     files w1 !! filename = Some (json_lines float_repr time_series) ∧
     (∀ other, other ≠ filename → files w1 !! other = files w !! other) ∧
     stdout w1 = stdout w ++ [filename +:+ " saved."] ∧
     ∃ w2,
       write_json_dataset float_repr (Some time_series) filename w1 = (w2, Ok ()) ∧
       files w2 = files w1) ∧
  (openable w filename = false →
   write_json_dataset float_repr (Some time_series) filename w = (w, Raise OSError)).
Proof.
  split; [|apply write_json_dataset_closed].
  intros Hopen.
  destruct (write_json_dataset_file float_repr filename w time_series Hopen)
    as (w1 & Hr & Hf & Ho & Hs & Hop).
  exists w1. do 4 (split; [done|]).
  assert (openable w1 filename = true) as Hopen1 by (by rewrite Hop).
  destruct (write_json_dataset_file float_repr filename w1 time_series Hopen1)
    as (w2 & Hr2 & Hf2 & Ho2 & _).
  exists w2. split; [done|].
  apply map_eq. intros name. destruct (decide (name = filename)) as [->|Hne].
  - by rewrite Hf2, Hf.
  - by apply Ho2.
Qed.

(** Property X11.  Cell 32 as the notebook runs it: [time_series_training]
    is the [None] that cell 23 got from [create_training_series], so the
    first call raises a [TypeError] once [train.json] is open; the cell ends
    on that error, leaving [train.json] empty, [test.json] and every other
    file as they were, and nothing printed.  Were [time_series_training] a
    list, the cell would leave that list in [train.json] and the full list in
    [test.json], each as its own lines, whatever the two files held, touch no
    other file, and print the two names in that order. *)
Theorem cell_32_files time_series w :
  openable w train_key = true →
  cell_23 time_series = Ok None ∧
  (∃ w',
     cell_32 float_repr None time_series w = (w', Raise TypeError) ∧
     files w' !! train_key = Some [] ∧
     (∀ other, other ≠ train_key → files w' !! other = files w !! other) ∧
     stdout w' = stdout w) ∧
  (∀ time_series_training : list (Series A),
     openable w test_key = true →
     ∃ w',
       cell_32 float_repr (Some time_series_training) time_series w = (w', Ok ()) ∧
       files w' !! train_key = Some (json_lines float_repr time_series_training) ∧
       files w' !! test_key = Some (json_lines float_repr time_series) ∧
       (∀ other, other ≠ train_key → other ≠ test_key →
                 files w' !! other = files w !! other) ∧
       stdout w' = stdout w ++ [train_key +:+ " saved."; test_key +:+ " saved."]).
Proof.
  intros Htrain. split; [reflexivity|]. split.
  - destruct (write_json_dataset_None (A:=A) float_repr train_key w Htrain)
      as (w' & Hr & Hf & Ho & Hs & _).
    exists w'. unfold cell_32. rewrite Hr. done.
  - intros time_series_training Htest.
    destruct (write_json_dataset_file float_repr train_key w time_series_training Htrain)
      as (w1 & Hr1 & Hf1 & Ho1 & Hs1 & Hop1).
    assert (openable w1 test_key = true) as Htest1 by (by rewrite Hop1).
    destruct (write_json_dataset_file float_repr test_key w1 time_series Htest1)
      as (w2 & Hr2 & Hf2 & Ho2 & Hs2 & _).
    exists w2. unfold cell_32. rewrite Hr1, Hr2.
    assert (train_key ≠ test_key) as Hne by discriminate.
    split; [done|]. split; [|split; [|split]].
    + by rewrite (Ho2 train_key Hne).
    + exact Hf2.
    + intros other H1 H2. rewrite (Ho2 other H2). by apply Ho1.
    + rewrite Hs2, Hs1. by rewrite <- app_assoc.
Qed.

End WriteMore.

(** A directory that is there, and one that is not. *)
Lemma write_json_dataset_replaces_witness :
  (∃ w1,
     write_json_dataset no_float_repr (Some [series_2007; series_2008]) train_key
       empty_world = (w1, Ok ()) ∧
     files w1 !! train_key = Some (encode_utf8 ("null" +:+ newline +:+ "null" +:+ newline)) ∧
     stdout w1 = ["json_energy_data/train.json saved."]) ∧
  write_json_dataset no_float_repr (Some [series_2007; series_2008]) train_key
    (with_openable (fun _ => false) empty_world)
  = (with_openable (fun _ => false) empty_world, Raise OSError).
Proof.
  destruct (write_json_dataset_replaces no_float_repr [series_2007; series_2008] train_key
              empty_world) as [Hopen _].
  destruct (write_json_dataset_replaces no_float_repr [series_2007; series_2008] train_key
              (with_openable (fun _ => false) empty_world)) as [_ Hclosed].
  split; [|exact (Hclosed eq_refl)].
  destruct (Hopen eq_refl) as (w1 & Hr & Hf & _ & Hs & _).
  exists w1. split; [exact Hr|]. split; [exact Hf|exact Hs].
Defined.

(** The notebook's run on the two example series, in a directory that is
    there. *)
Lemma cell_32_files_witness :
  openable empty_world train_key = true ∧
  cell_23 [series_2007; series_2008] = Ok None ∧
  ∃ w',
    cell_32 no_float_repr None [series_2007; series_2008] empty_world
    = (w', Raise TypeError) ∧
    files w' !! train_key = Some [] ∧
    files w' !! test_key = None ∧
    stdout w' = [].
Proof.
  split; [reflexivity|].
  destruct (cell_32_files no_float_repr [series_2007; series_2008] empty_world eq_refl)
    as (H23 & (w' & Hr & Hf & Ho & Hs) & _).
  split; [exact H23|]. exists w'.
  split; [exact Hr|]. split; [exact Hf|]. split; [|exact Hs].
  rewrite (Ho test_key); [reflexivity|discriminate].
Defined.

(** ** The series of 2010 *)

Section Series2010.

Context {A : Type}.

Lemma daily_frame_values t0 (vals : list A) : values (daily_frame t0 vals) = vals.
Proof.
  apply list_eq. intros i. unfold values. rewrite list_lookup_fmap.
  etrans; [exact (f_equal (fmap snd) (daily_frame_lookup t0 vals i))|].
  by destruct (vals !! i).
Qed.

(** The rows of a daily frame from row [n] on: its values from the [n]th
    on, each under the day that many days after the frame's first. *)
Lemma zip_days (t0 : Z) (vals : list A) (n : nat) :
  zip_with pair
    (map (fun k : nat => t0 + Z.of_nat n * SECONDS_PER_DAY + Z.of_nat k * SECONDS_PER_DAY)
         (seq 0 (length (drop n vals))))
    (drop n vals)
  = drop n (imap (fun (k : nat) (v : A) => (t0 + Z.of_nat k * SECONDS_PER_DAY, v)) vals).
Proof.
  apply list_eq. intros i.
  rewrite lookup_zip_with, list_lookup_fmap, !lookup_drop, list_lookup_imap.
  destruct (vals !! (n + i)%nat) as [v|] eqn:Hv; simpl.
  - rewrite lookup_seq_lt.
    + simpl. do 2 f_equal. unfold SECONDS_PER_DAY. lia.
    + rewrite length_drop. apply lookup_lt_Some in Hv. lia.
  - by destruct (seq 0 (length (drop n vals)) !! i).
Qed.

(** Property X12.  On a frame of consecutive days that starts on 2006-12-16
    (all of its labels days a [Timestamp] holds), the series of 2010 is the
    frame's rows from row 1112 on, each under the date the frame has it
    under; row 1112 is where the passes of [make_time_series] for 2007 to 2009
    stop, and it is January 1, 2010. *)
Theorem ts_2010_rows (vals : list A) :
  Forall (fun t => t <= Timestamp_max_day) (index (daily_frame (midnight 2006 12 16) vals)) →
  ts_2010 (daily_frame (midnight 2006 12 16) vals)
  = Ok [drop 1112 (daily_frame (midnight 2006 12 16) vals)] ∧
  final_idx full_years default_start_idx = 1112 ∧
  midnight 2006 12 16 + 1112 * SECONDS_PER_DAY = midnight 2010 1 1.
Proof.
  intros Hmax. split; [|split; reflexivity].
  unfold ts_2010, DatetimeIndex_periods.
  assert (to_datetime start_date = Ok (midnight 2010 1 1)) as -> by reflexivity.
  cbn [mbind result_bind]. rewrite daily_frame_values.
  assert (midnight 2010 1 1 = midnight 2006 12 16 + 1112 * SECONDS_PER_DAY) as Ht
    by reflexivity.
  assert (forallb (fun t => t <=? Timestamp_max_day)
            (map (fun k => midnight 2010 1 1 + Z.of_nat k * SECONDS_PER_DAY)
                 (seq 0 (length (drop 1112 vals)))) = true) as ->.
  { apply forallb_forall. intros t Hin%list_elem_of_In.
    apply list_elem_of_fmap in Hin as (k & -> & Hk%elem_of_seq).
    rewrite length_drop in Hk. apply Z.leb_le.
    rewrite Forall_forall in Hmax. apply Hmax.
    rewrite daily_frame_index. apply list_elem_of_fmap.
    exists (1112 + k)%nat. split.
    - rewrite Ht. unfold SECONDS_PER_DAY. lia.
    - apply elem_of_seq. lia. }
  cbn [mbind result_bind]. unfold Series_of_values.
  rewrite length_map, length_seq, Nat.eqb_refl.
  cbn [mbind result_bind app]. do 2 f_equal.
  rewrite Ht. exact (zip_days (midnight 2006 12 16) vals 1112).
Qed.

End Series2010.

Lemma ts_2010_rows_witness :
  Forall (fun t => t <= Timestamp_max_day) (index frame_from_2006) ∧
  ts_2010 frame_from_2006 = Ok [drop 1112 frame_from_2006] ∧
  length (drop 1112 frame_from_2006) = 88%nat.
Proof.
  assert (Forall (fun t => t <= Timestamp_max_day) (index frame_from_2006)) as Hmax.
  { apply Forall_forall. intros t Hin.
    assert (forallb (fun t => t <=? Timestamp_max_day) (index frame_from_2006) = true)
      as Hall by (vm_compute; reflexivity).
    rewrite forallb_forall in Hall. apply Z.leb_le, Hall. by apply list_elem_of_In. }
  split; [exact Hmax|]. split; [|reflexivity].
  exact (proj1 (ts_2010_rows (counting 1200) Hmax)).
Defined.

Lemma mean_power_df_consecutive_witness :
  index (mean_power_df sum_over_count two_days_apart) !! 0%nat = Some (midnight 1970 1 1) ∧
  index (mean_power_df sum_over_count two_days_apart) !! 1%nat = Some (midnight 1970 1 2) ∧
  midnight 1970 1 2 = midnight 1970 1 1 + SECONDS_PER_DAY ∧
  midnight 1970 1 1 = day_start (day_of (midnight 1970 1 1)).
Proof.
  split; [reflexivity|]. split; [reflexivity|].
  exact (mean_power_df_consecutive sum_over_count two_days_apart 0
           (midnight 1970 1 1) (midnight 1970 1 2)
           eq_refl eq_refl).
Defined.
